(** * OpenCode dashboard: HTTP relay, Anthropic OAuth/PKCE logic and UI handlers

    A shallow embedding of the TypeScript sources:
    - [src/index.tsx]            the Bun relay ([Module Relay]);
    - [lib/anthropic-auth.ts]    PKCE, code exchange, credential storage
                                 ([Module AnthropicAuth]);
    - [lib/auth-service.ts]      the browser-side auth service
                                 ([Module AuthService]);
    - [components/AuthStatus.tsx] both revisions of the status card
                                 ([Module AuthStatus], [Module AuthStatusStatic]);
    - [components/AiChat.tsx]    session creation of the chat widget
                                 ([Module AiChat]).

    Asynchronous functions are run to completion one after the other (the
    programs are single threaded and every [await] is sequential), as
    computations over an explicit state that records every [fetch] issued.
    What the JavaScript runtime and third-party packages provide (the network,
    [JSON.parse], [JSON.stringify], the clock, [generatePKCE], [Math.random],
    arithmetic where doubles round, the errors of the [Response] constructor)
    is a parameter, the record [Runtime]. *)

From Stdlib Require Import ZArith String Ascii List Lia.
From stdpp Require Import base gmap strings list pretty.

(** ** JavaScript values, completions and strings *)

Module JS.

Set Warnings "-register-all".

(** Values as they come out of [JSON.parse], plus [undefined] and [NaN].
    Numbers are restricted to integers; [JNum n] is the number [n] itself
    when [n] is within [-2^53, 2^53], the range in which doubles hold every
    integer exactly.  An object is its list of fields in source order; on a
    repeated key the last field wins. *)
Inductive JValue : Type :=
| JUndefined
| JNull
| JBool (b : bool)
| JNum (n : Z)
| JNaN
| JStr (s : string)
| JArr (items : list JValue)
| JObj (fields : list (string * JValue)).

(** A completion: a normal value, or a thrown [Error] with its message. *)
Inductive Completion (A : Type) : Type :=
| Normal (a : A)
| Thrown (message : string).
Arguments Normal {A} a.
Arguments Thrown {A} message.

(** Truthiness ([if (v)], [!v], [a || b], [a && b]). *)
Definition truthy (v : JValue) : bool :=
  match v with
  | JUndefined | JNull | JNaN => false
  | JBool b => b
  | JNum n => negb (n =? 0)%Z
  | JStr s => negb (String.eqb s "")
  | JArr _ | JObj _ => true
  end.

Definition js_or (a b : JValue) : JValue := if truthy a then a else b.

(** [v === "literal"] *)
Definition strict_eq_str (v : JValue) (literal : string) : bool :=
  match v with
  | JStr s => String.eqb s literal
  | _ => false
  end.

(** [s] as a condition: the empty string is falsy. *)
Definition truthy_str (s : string) : bool := negb (String.eqb s "").

(** [o: string | null] as a condition. *)
Definition truthy_opt (o : option string) : bool :=
  match o with Some s => truthy_str s | None => false end.

Fixpoint last_field (k : string) (fields : list (string * JValue)) : JValue :=
  match fields with
  | [] => JUndefined
  | (k', v) :: rest =>
      match last_field k rest with
      | JUndefined => if String.eqb k k' then v else JUndefined
      | found => found
      end
  end.

(** Property read [v.k] once [v] is known not to be [null]/[undefined]:
    own fields of objects, [length] of arrays and strings, [undefined]
    otherwise. *)
Definition own_prop (v : JValue) (k : string) : JValue :=
  match v with
  | JObj fields => last_field k fields
  | JArr items => if String.eqb k "length" then JNum (Z.of_nat (length items)) else JUndefined
  | JStr s => if String.eqb k "length" then JNum (Z.of_nat (String.length s)) else JUndefined
  | _ => JUndefined
  end.

(** [String(v)], the conversion used by template literals.  A number is
    printed with all its digits, which is what JavaScript prints for the
    integers within [-2^53, 2^53]. *)
Fixpoint js_String (v : JValue) : string :=
  match v with
  | JUndefined => "undefined"
  | JNull => "null"
  | JBool true => "true"
  | JBool false => "false"
  | JNum n => pretty n
  | JNaN => "NaN"
  | JStr s => s
  | JArr items =>
      String.concat ","
        (map (fun x => match x with
                       | JUndefined | JNull => ""
                       | _ => js_String x
                       end) items)
  | JObj _ => "[object Object]"
  end.

(** ASCII lower-casing, as [Headers] does with header names. *)
Definition lower_ascii (c : ascii) : ascii :=
  let n := nat_of_ascii c in
  if (65 <=? n)%nat && (n <=? 90)%nat then ascii_of_nat (n + 32) else c.

Fixpoint lower (s : string) : string :=
  match s with
  | EmptyString => EmptyString
  | String c rest => String (lower_ascii c) (lower rest)
  end.

(** [s.split(sep)] for a one-character separator. *)
Fixpoint split_on (sep : ascii) (s : string) : list string :=
  match s with
  | EmptyString => [EmptyString]
  | String c rest =>
      if Ascii.eqb c sep then EmptyString :: split_on sep rest
      else match split_on sep rest with
           | [] => [String c EmptyString]
           | piece :: pieces => String c piece :: pieces
           end
  end.

Fixpoint drop_chars (n : nat) (s : string) : string :=
  match n, s with
  | O, _ => s
  | S n', String _ rest => drop_chars n' rest
  | S _, EmptyString => EmptyString
  end.

(** [s.replace(pat, rep)] with a string pattern: the first occurrence only. *)
Fixpoint replace_first (pat rep s : string) : string :=
  if String.prefix pat s then rep +:+ drop_chars (String.length pat) s
  else match s with
       | EmptyString => EmptyString
       | String c rest => String c (replace_first pat rep rest)
       end.

(** [s.charAt(i)]: the empty string out of range. *)
Definition charAt (s : string) (i : nat) : string :=
  match String.get i s with
  | Some c => String c EmptyString
  | None => EmptyString
  end.

End JS.
Export JS.

(** ** HTTP messages, the runtime, and computations that may throw *)

Module Http.

(** A [Headers] object: names are case-insensitive, stored lower-cased. *)
Abbreviation Headers := (gmap string string).

Definition Headers_set (name value : string) (h : Headers) : Headers :=
  <[lower name := value]> h.

Definition Headers_get (h : Headers) (name : string) : option string :=
  h !! lower name.

(** [new Headers({...})], also what [fetch] and [new Response] do with a
    plain object of headers. *)
Definition Headers_new (init : list (string * string)) : Headers :=
  fold_left (fun h kv => Headers_set kv.1 kv.2 h) init ∅.

(** The arguments of one [fetch(url, init)] call. *)
Record Request : Type := mkRequest {
  url : string;
  method : string;
  req_headers : Headers;
  req_body : option string
}.

(** A response; [headers] are the ones set by whoever built it (the content
    type a runtime derives from the kind of body is not part of it), [body] is
    its text or stream content, [None] for a null body. *)
Record Response : Type := mkResponse {
  status : Z;
  statusText : string;
  headers : Headers;
  body : option string
}.

(** [response.ok] *)
Definition ok (r : Response) : bool := (200 <=? status r)%Z && (status r <=? 299)%Z.

(** What a [fetch] promise settles to. *)
Inductive FetchOutcome : Type :=
| Rejected (message : string)
| Responded (r : Response).

(** A fetch that failed: the promise rejected, or the response is not OK. *)
Definition failed_outcome (o : FetchOutcome) : Prop :=
  match o with
  | Rejected _ => True
  | Responded r => ok r = false
  end.

(** The result of [generatePKCE()] of [@openauthjs/openauth/pkce]. *)
Record PKCE : Type := mkPKCE {
  pkce_verifier : string;
  pkce_challenge : string;
  pkce_method : string
}.

(** Everything the code takes from its environment.  [net] answers a request
    given the requests issued before it; [Math_random_floor k n] is the value
    of [Math.floor(Math.random() * n)] at the [k]-th draw.  [Number_times] and
    [Number_plus] are the product and the sum of two numbers where an operand
    or the exact result lies outside [-2^53, 2^53], so that the double
    rounds.  [RangeError_message] is the message of the error the [Response]
    constructor throws for a status outside 200..599.  The Fetch standard
    also has the constructor throw a [TypeError] when a body comes with a
    null-body status; runtimes differ there, so [null_body_TypeError] is the
    message of that error, or [None] on a runtime that builds the response. *)
Record Runtime : Type := mkRuntime {
  net : list Request -> Request -> FetchOutcome;
  JSON_parse : string -> Completion JValue;
  JSON_stringify : JValue -> string;
  StringToNumber : string -> JValue;
  TypeError_message : string;
  Date_now : Z;
  Date_toLocaleString : string;
  generatePKCE : Completion PKCE;
  Math_random_floor : nat -> nat -> nat;
  Number_times : Z -> Z -> JValue;
  Number_plus : Z -> Z -> JValue;
  RangeError_message : string;
  null_body_TypeError : option string
}.

(** Computations over a state [S] that return or throw. *)
Definition Js (S A : Type) : Type := S -> Completion A * S.

Definition ret {S A} (a : A) : Js S A := fun s => (Normal a, s).

Definition throw {S A} (message : string) : Js S A := fun s => (Thrown message, s).

Definition bind {S A B} (m : Js S A) (k : A -> Js S B) : Js S B :=
  fun s =>
    match m s with
    | (Normal a, s') => k a s'
    | (Thrown e, s') => (Thrown e, s')
    end.

Definition lift {S A} (c : Completion A) : Js S A := fun s => (c, s).

Definition gets {S A} (f : S -> A) : Js S A := fun s => (Normal (f s), s).

Definition modify {S} (f : S -> S) : Js S unit := fun s => (Normal tt, f s).

(** [try { body } catch (error) { handler }] *)
Definition try_catch {S A} (body : Js S A) (handler : string -> Js S A) : Js S A :=
  fun s =>
    match body s with
    | (Normal a, s') => (Normal a, s')
    | (Thrown e, s') => handler e s'
    end.

(** [try { body } finally { final }] *)
Definition try_finally {S A} (body : Js S A) (final : Js S unit) : Js S A :=
  fun s =>
    match body s with
    | (c, s') =>
        match final s' with
        | (Normal _, s'') => (c, s'')
        | (Thrown e, s'') => (Thrown e, s'')
        end
    end.

Declare Scope js_scope.
Delimit Scope js_scope with js.
Notation "x <~ m ;; k" := (bind m (fun x => k))
  (at level 100, m at next level, right associativity) : js_scope.
Notation "m ;;; k" := (bind m (fun _ => k))
  (at level 100, right associativity) : js_scope.

(** A state that records the requests handed to [fetch], oldest first. *)
Class Net (S : Type) : Type := {
  sent : S -> list Request;
  record_request : Request -> S -> S
}.

(** [await fetch(url, init)]: the request is recorded whether or not the
    promise rejects. *)
Definition fetch {S} `{Net S} (rt : Runtime) (req : Request) : Js S Response :=
  fun s =>
    match net rt (sent s) req with
    | Rejected e => (Thrown e, record_request req s)
    | Responded r => (Normal r, record_request req s)
    end.

(** [v.k] and [const { k } = v]: a [TypeError] on [null] and [undefined]. *)
Definition get_prop (rt : Runtime) (v : JValue) (k : string) : Completion JValue :=
  match v with
  | JUndefined | JNull => Thrown (TypeError_message rt)
  | _ => Normal (own_prop v k)
  end.

(** [await response.text()] and [await req.text()] *)
Definition text_of (b : option string) : string :=
  match b with Some s => s | None => EmptyString end.

(** [await response.json()] and [await req.json()] *)
Definition json_of (rt : Runtime) (b : option string) : Completion JValue :=
  JSON_parse rt (text_of b).

(** The statuses the [Response] constructor takes: 200 to 599. *)
Definition status_in_range (st : Z) : bool := (200 <=? st)%Z && (st <=? 599)%Z.

(** The null-body statuses of the Fetch standard. *)
Definition null_body_status (st : Z) : bool :=
  (st =? 101)%Z || (st =? 103)%Z || (st =? 204)%Z || (st =? 205)%Z || (st =? 304)%Z.

(** The error [new Response(body, { status })] throws, if any: a
    [RangeError] for a status out of range, and on the runtimes that check it
    a [TypeError] for a body given with a null-body status. *)
Definition Response_refused (rt : Runtime) (b : option string) (st : Z) : option string :=
  if negb (status_in_range st) then Some (RangeError_message rt)
  else if null_body_status st
       then match b, null_body_TypeError rt with
            | Some _, Some message => Some message
            | _, _ => None
            end
       else None.

(** [new Response(body, { status, headers })] with [headers] a [Headers]
    object. *)
Definition construct_Response (rt : Runtime) (b : option string) (st : Z) (h : Headers)
    : Completion Response :=
  match Response_refused rt b st with
  | Some message => Thrown message
  | None => Normal {| status := st; statusText := EmptyString; headers := h; body := b |}
  end.

(** [new Response(body, { status, headers })] with the headers written out
    as an object literal. *)
Definition new_Response (rt : Runtime) (b : option string) (st : Z)
    (h : list (string * string)) : Completion Response :=
  construct_Response rt b st (Headers_new h).

(** Whether the constructor builds a response with a text body and this
    status. *)
Definition takes_status (rt : Runtime) (st : Z) : bool :=
  status_in_range st
  && negb (null_body_status st
           && match null_body_TypeError rt with Some _ => true | None => false end).

(** [Response.json(data, { status, headers })]: the serialized data as
    body, with the headers given.  The code passes it the statuses 200, 500
    and 502 only, which the constructor takes. *)
Definition Response_json (rt : Runtime) (data : JValue) (st : Z)
    (h : list (string * string)) : Response :=
  {| status := st;
     statusText := EmptyString;
     headers := Headers_new h;
     body := Some (JSON_stringify rt data) |}.

End Http.
Export Http.

(** ** The relay ([src/index.tsx])

    One definition per route handler of [serve({ routes })].  The calls to
    [log] (console and [debug.log], never throwing) are left out, and with
    them the catch-all's reading of a clone of the body for the log; they do
    not touch requests or responses. *)

Module Relay.

(** The request a handler receives: [req.method], the pathname and search
    of [new URL(req.url)], [req.params.id], [req.headers] and the body. *)
Record BunRequest : Type := mkBunRequest {
  in_method : string;
  in_pathname : string;
  in_search : string;
  in_param_id : string;
  in_headers : Headers;
  in_body : option string
}.

Definition cors_any : list (string * string) :=
  [("Access-Control-Allow-Origin", "*");
   ("Access-Control-Allow-Methods", "GET, POST, PUT, DELETE, OPTIONS");
   ("Access-Control-Allow-Headers", "Content-Type, Authorization")].

Definition cors_post : list (string * string) :=
  [("Access-Control-Allow-Origin", "*");
   ("Access-Control-Allow-Methods", "POST, OPTIONS");
   ("Access-Control-Allow-Headers", "Content-Type, Authorization")].

Definition cors_put : list (string * string) :=
  [("Access-Control-Allow-Origin", "*");
   ("Access-Control-Allow-Methods", "PUT, OPTIONS");
   ("Access-Control-Allow-Headers", "Content-Type, Authorization")].

Definition json_content : list (string * string) :=
  [("Content-Type", "application/json")].

Definition error_body (message : string) : JValue := JObj [("error", JStr message)].

Section Handlers.
Context {S : Type} `{Net S} (rt : Runtime).
Local Open Scope js_scope.

(** ["/api/anthropic/oauth/token"], POST *)
Definition oauth_token_POST (req : BunRequest) : Js S Response :=
  try_catch
    (body <~ lift (json_of rt (in_body req)) ;;
     response <~ fetch rt {| url := "https://console.anthropic.com/v1/oauth/token";
                             method := "POST";
                             req_headers := Headers_new json_content;
                             req_body := Some (JSON_stringify rt body) |} ;;
     let responseData := text_of (Http.body response) in
     lift (new_Response rt (Some responseData) (status response)
             (json_content ++ cors_post)))
    (fun error =>
       ret (Response_json rt (error_body "Failed to exchange OAuth token") 500
              [("Access-Control-Allow-Origin", "*")])).

(** ["/api/anthropic/oauth/token"], OPTIONS *)
Definition oauth_token_OPTIONS (req : BunRequest) : Js S Response :=
  lift (new_Response rt None 200 cors_post).

(** ["/api/anthropic/oauth/api-key"], POST *)
Definition oauth_api_key_POST (req : BunRequest) : Js S Response :=
  try_catch
    (body <~ lift (json_of rt (in_body req)) ;;
     access_token <~ lift (get_prop rt body "access_token") ;;
     response <~ fetch rt
       {| url := "https://api.anthropic.com/api/oauth/claude_cli/create_api_key";
          method := "POST";
          req_headers := Headers_new
            (json_content ++ [("Authorization", "Bearer " +:+ js_String access_token)]);
          req_body := None |} ;;
     let responseData := text_of (Http.body response) in
     lift (new_Response rt (Some responseData) (status response)
             (json_content ++ cors_post)))
    (fun error =>
       ret (Response_json rt (error_body "Failed to create API key") 500
              [("Access-Control-Allow-Origin", "*")])).

(** ["/api/anthropic/oauth/api-key"], OPTIONS *)
Definition oauth_api_key_OPTIONS (req : BunRequest) : Js S Response :=
  lift (new_Response rt None 200 cors_post).

(** ["/api/opencode/auth/:id"], PUT *)
Definition auth_PUT (req : BunRequest) : Js S Response :=
  let id := in_param_id req in
  let body := text_of (in_body req) in
  try_catch
    (response <~ fetch rt {| url := "http://0.0.0.0:3001/auth/" +:+ id;
                             method := "PUT";
                             req_headers := Headers_new json_content;
                             req_body := Some body |} ;;
     let responseText := text_of (Http.body response) in
     lift (new_Response rt (Some responseText) (status response)
             (json_content ++ cors_any)))
    (fun error =>
       ret (Response_json rt (error_body "Failed to store auth credentials") 502
              [("Access-Control-Allow-Origin", "*")])).

(** ["/api/opencode/auth/:id"], OPTIONS *)
Definition auth_OPTIONS (req : BunRequest) : Js S Response :=
  lift (new_Response rt None 200 cors_put).

(** The tail shared by the OpenCode handlers: CORS headers, then the upstream
    content type if there is a non-empty one, the upstream text and status. *)
Definition forward_back (response : Response) : Completion Response :=
  let responseText := text_of (Http.body response) in
  let responseHeaders := Headers_new cors_any in
  let contentType := Headers_get (headers response) "content-type" in
  let responseHeaders :=
    match contentType with
    | Some ct => if truthy_str ct then Headers_set "content-type" ct responseHeaders
                 else responseHeaders
    | None => responseHeaders
    end in
  construct_Response rt (Some responseText) (status response) responseHeaders.

(** ["/api/opencode/session"], GET *)
Definition session_GET (req : BunRequest) : Js S Response :=
  let opencodeUrl := "http://0.0.0.0:3001/session" +:+ in_search req in
  try_catch
    (response <~ fetch rt {| url := opencodeUrl;
                             method := in_method req;
                             req_headers := Headers_new json_content;
                             req_body := None |} ;;
     lift (forward_back response))
    (fun error =>
       ret (Response_json rt (error_body "Failed to connect to OpenCode server") 502
              [("Access-Control-Allow-Origin", "*")])).

(** ["/api/opencode/session"], POST *)
Definition session_POST (req : BunRequest) : Js S Response :=
  let opencodeUrl := "http://0.0.0.0:3001/session" in
  try_catch
    (let body := text_of (in_body req) in
     response <~ fetch rt {| url := opencodeUrl;
                             method := "POST";
                             req_headers := Headers_new json_content;
                             req_body := Some body |} ;;
     lift (forward_back response))
    (fun error =>
       ret (Response_json rt (error_body "Failed to create session") 502
              [("Access-Control-Allow-Origin", "*")])).

(** ["/api/opencode/session"], OPTIONS *)
Definition session_OPTIONS (req : BunRequest) : Js S Response :=
  lift (new_Response rt None 200 cors_any).

(** ["/api/opencode/session/:id/message"], GET *)
Definition message_GET (req : BunRequest) : Js S Response :=
  let id := in_param_id req in
  let opencodeUrl :=
    "http://0.0.0.0:3001/session/" +:+ id +:+ "/message" +:+ in_search req in
  try_catch
    (response <~ fetch rt {| url := opencodeUrl;
                             method := "GET";
                             req_headers := Headers_new json_content;
                             req_body := None |} ;;
     lift (forward_back response))
    (fun error =>
       ret (Response_json rt (error_body "Failed to fetch messages") 502
              [("Access-Control-Allow-Origin", "*")])).

(** ["/api/opencode/session/:id/message"], POST *)
Definition message_POST (req : BunRequest) : Js S Response :=
  let id := in_param_id req in
  let opencodeUrl := "http://0.0.0.0:3001/session/" +:+ id +:+ "/message" in
  try_catch
    (let body := text_of (in_body req) in
     response <~ fetch rt {| url := opencodeUrl;
                             method := "POST";
                             req_headers := Headers_new json_content;
                             req_body := Some body |} ;;
     lift (forward_back response))
    (fun error =>
       ret (Response_json rt (error_body "Failed to send message") 502
              [("Access-Control-Allow-Origin", "*")])).

(** ["/api/opencode/session/:id/message"], OPTIONS *)
Definition message_OPTIONS (req : BunRequest) : Js S Response :=
  lift (new_Response rt None 200 cors_any).

(** ["/api/opencode/events"]: the upstream body is handed on as it is. *)
Definition events (req : BunRequest) : Js S Response :=
  try_catch
    (let opencodeUrl := "http://0.0.0.0:3001/event" in
     response <~ fetch rt {| url := opencodeUrl;
                             method := "GET";
                             req_headers := Headers_new
                               [("Accept", "text/event-stream");
                                ("Cache-Control", "no-cache");
                                ("Connection", "keep-alive")];
                             req_body := None |} ;;
     if negb (ok response)
     then throw ("OpenCode events endpoint returned " +:+ pretty (status response))
     else
       lift (new_Response rt (Http.body response) 200
               [("Content-Type", "text/event-stream");
                ("Cache-Control", "no-cache");
                ("Connection", "keep-alive");
                ("Access-Control-Allow-Origin", "*");
                ("Access-Control-Allow-Headers", "Cache-Control")]))
    (fun error =>
       ret (Response_json rt (error_body "Failed to connect to OpenCode events stream") 502
              [("Access-Control-Allow-Origin", "*")])).

(** ["/api/opencode/*"], the catch-all proxy *)
Definition catch_all (req : BunRequest) : Js S Response :=
  let opencodeApiPath := replace_first "/api/opencode" "" (in_pathname req) in
  let opencodeUrl := "http://0.0.0.0:3001" +:+ opencodeApiPath +:+ in_search req in
  try_catch
    (response <~ fetch rt
       {| url := opencodeUrl;
          method := in_method req;
          req_headers := Headers_new
            (json_content ++
             match Headers_get (in_headers req) "content-type" with
             | Some ct => if truthy_str ct then [("Content-Type", ct)] else []
             | None => []
             end);
          req_body := if negb (String.eqb (in_method req) "GET")
                         && negb (String.eqb (in_method req) "HEAD")
                      then Some (text_of (in_body req))
                      else None |} ;;
     lift (forward_back response))
    (fun error =>
       ret (Response_json rt (error_body "Failed to connect to OpenCode server") 502 [])).

End Handlers.

(** The forwarding handlers by name. *)
Inductive Endpoint : Type :=
| OAuthToken_POST | OAuthToken_OPTIONS
| OAuthApiKey_POST | OAuthApiKey_OPTIONS
| Auth_PUT | Auth_OPTIONS
| Session_GET | Session_POST | Session_OPTIONS
| Message_GET | Message_POST | Message_OPTIONS
| Events
| CatchAll.

Definition all_endpoints : list Endpoint :=
  [OAuthToken_POST; OAuthToken_OPTIONS; OAuthApiKey_POST; OAuthApiKey_OPTIONS;
   Auth_PUT; Auth_OPTIONS; Session_GET; Session_POST; Session_OPTIONS;
   Message_GET; Message_POST; Message_OPTIONS; Events; CatchAll].

Definition handler {S : Type} `{Net S} (rt : Runtime) (e : Endpoint)
    : BunRequest -> Js S Response :=
  match e with
  | OAuthToken_POST => oauth_token_POST rt
  | OAuthToken_OPTIONS => oauth_token_OPTIONS rt
  | OAuthApiKey_POST => oauth_api_key_POST rt
  | OAuthApiKey_OPTIONS => oauth_api_key_OPTIONS rt
  | Auth_PUT => auth_PUT rt
  | Auth_OPTIONS => auth_OPTIONS rt
  | Session_GET => session_GET rt
  | Session_POST => session_POST rt
  | Session_OPTIONS => session_OPTIONS rt
  | Message_GET => message_GET rt
  | Message_POST => message_POST rt
  | Message_OPTIONS => message_OPTIONS rt
  | Events => events rt
  | CatchAll => catch_all rt
  end.

(** The two handlers in front of Anthropic's OAuth endpoints. *)
Definition is_anthropic (e : Endpoint) : bool :=
  match e with OAuthToken_POST | OAuthApiKey_POST => true | _ => false end.

(** The handlers that hand the upstream content type on: the catch-all and
    the session and message routes. *)
Definition copies_content_type (e : Endpoint) : bool :=
  match e with
  | Session_GET | Session_POST | Message_GET | Message_POST | CatchAll => true
  | _ => false
  end.

(** The handlers that answer [application/json] whatever the upstream said. *)
Definition declares_json (e : Endpoint) : bool :=
  match e with Auth_PUT | OAuthToken_POST | OAuthApiKey_POST => true | _ => false end.

(** The text of the [error] field in each handler's [catch] branch. *)
Definition unreachable_message (e : Endpoint) : string :=
  match e with
  | OAuthToken_POST => "Failed to exchange OAuth token"
  | OAuthApiKey_POST => "Failed to create API key"
  | Auth_PUT => "Failed to store auth credentials"
  | Session_GET => "Failed to connect to OpenCode server"
  | Session_POST => "Failed to create session"
  | Message_GET => "Failed to fetch messages"
  | Message_POST => "Failed to send message"
  | Events => "Failed to connect to OpenCode events stream"
  | CatchAll => "Failed to connect to OpenCode server"
  | OAuthToken_OPTIONS | OAuthApiKey_OPTIONS | Auth_OPTIONS
  | Session_OPTIONS | Message_OPTIONS => ""
  end.

(** The content type a handler hands on from an upstream response. *)
Definition upstream_content_type (up : Response) : option string :=
  match Headers_get (headers up) "content-type" with
  | Some ct => if truthy_str ct then Some ct else None
  | None => None
  end.

(** A 502 answer with a JSON [error] body. *)
Definition bad_gateway (rt : Runtime) (message : string) (resp : Response) : Prop :=
  status resp = 502%Z
  /\ body resp = Some (JSON_stringify rt (error_body message)).

(** The relay's own state: the upstream requests of the running handler. *)
#[export] Instance relay_net : Net (list Request) :=
  {| sent := fun l => l; record_request := fun r l => l ++ [r] |}.

(** Serving one request: the handler runs on an empty record. *)
Definition serve (rt : Runtime) (e : Endpoint) (req : BunRequest)
    : Completion Response * list Request :=
  handler rt e req [].

End Relay.

(** ** The browser page *)

Module Page.

(** An [EventSource] object: its URL, the session id its [onmessage]
    handler was created for, and whether [close()] was called on it. *)
Record EventSource : Type := mkEventSource {
  es_url : string;
  es_session : JValue;
  es_closed : bool
}.

(** The part of the page all components share: [sessionStorage], the
    requests issued with [fetch], the number of [Math.random()] draws so far
    and every [EventSource] constructed (a reference to one is its index). *)
Record Browser : Type := mkBrowser {
  sessionStorage : gmap string string;
  requests : list Request;
  random_draws : nat;
  event_sources : list EventSource
}.

Definition fresh : Browser :=
  {| sessionStorage := ∅; requests := []; random_draws := 0; event_sources := [] |}.

Definition with_storage (f : gmap string string -> gmap string string) (b : Browser) : Browser :=
  {| sessionStorage := f (sessionStorage b); requests := requests b;
     random_draws := random_draws b; event_sources := event_sources b |}.

Definition with_request (r : Request) (b : Browser) : Browser :=
  {| sessionStorage := sessionStorage b; requests := requests b ++ [r];
     random_draws := random_draws b; event_sources := event_sources b |}.

Definition with_draw (b : Browser) : Browser :=
  {| sessionStorage := sessionStorage b; requests := requests b;
     random_draws := Datatypes.S (random_draws b); event_sources := event_sources b |}.

Definition with_event_sources (f : list EventSource -> list EventSource) (b : Browser) : Browser :=
  {| sessionStorage := sessionStorage b; requests := requests b;
     random_draws := random_draws b; event_sources := f (event_sources b) |}.

#[export] Instance browser_net : Net Browser :=
  {| sent := requests; record_request := with_request |}.

(** [sessionStorage.getItem], [setItem], [removeItem] *)
Definition getItem (k : string) : Js Browser (option string) :=
  gets (fun b => sessionStorage b !! k).

Definition setItem (k v : string) : Js Browser unit :=
  modify (with_storage (insert k v)).

Definition removeItem (k : string) : Js Browser unit :=
  modify (with_storage (delete k)).

(** A component: its own state [C] next to the shared [Browser]. *)
#[export] Instance component_net {C : Type} : Net (C * Browser) :=
  {| sent := fun s => requests s.2;
     record_request := fun r s => (s.1, with_request r s.2) |}.

Definition in_browser {C A : Type} (m : Js Browser A) : Js (C * Browser) A :=
  fun s => match m s.2 with (c, b') => (c, (s.1, b')) end.

(** [setState] of the component and a read of its current state. *)
Definition set_state {C : Type} (f : C -> C) : Js (C * Browser) unit :=
  modify (fun s => (f s.1, s.2)).

Definition get_state {C A : Type} (f : C -> A) : Js (C * Browser) A :=
  gets (fun s => f s.1).

End Page.
Export Page.

(** ** [lib/anthropic-auth.ts] *)

Module AnthropicAuth.

Definition CLIENT_ID : string := "9d1c250a-e61b-44d9-88ed-5944d1962f5e".

(** A [URL] under construction: what precedes the query and the
    [searchParams] in order.  [toString()] is the serialization of it. *)
Record URL : Type := mkURL {
  href_base : string;
  searchParams : list (string * string)
}.

(** [url.searchParams.set(name, value)]: the first entry of that name is
    overwritten and later ones dropped, else the pair is appended. *)
Fixpoint params_set (name value : string) (ps : list (string * string))
    : list (string * string) :=
  match ps with
  | [] => [(name, value)]
  | (n, v) :: rest =>
      if String.eqb n name
      then (name, value) :: List.filter (fun p => negb (String.eqb p.1 name)) rest
      else (n, v) :: params_set name value rest
  end.

Definition searchParams_set (name value : string) (u : URL) : URL :=
  {| href_base := href_base u; searchParams := params_set name value (searchParams u) |}.

Definition searchParams_get (u : URL) (name : string) : option string :=
  snd <$> List.find (fun p => String.eqb p.1 name) (searchParams u).

Record AuthorizeResult : Type := mkAuthorizeResult {
  auth_url : URL;
  auth_verifier : string
}.

Inductive ResultType : Type := success | failed.

(** [ExchangeResult]; an absent optional field is [JUndefined]. *)
Record ExchangeResult : Type := mkExchangeResult {
  type : ResultType;
  refresh : JValue;
  access : JValue;
  expires : JValue;
  key : JValue
}.

(** The literal [{ type: "failed" }]. *)
Definition just_failed : ExchangeResult :=
  {| type := failed; refresh := JUndefined; access := JUndefined;
     expires := JUndefined; key := JUndefined |}.

Definition chars : string :=
  "ABCDEFGHIJKLMNOPQRSTUVWXYZabcdefghijklmnopqrstuvwxyz0123456789-._~".

Section WithRuntime.
Context (rt : Runtime).
Local Open Scope js_scope.

(** [ToNumber] on the values of this model; strings, and arrays and objects
    through their string form, go to the runtime's [StringToNumber]. *)
Definition ToNumber (v : JValue) : JValue :=
  match v with
  | JUndefined | JNaN => JNaN
  | JNull => JNum 0
  | JBool b => JNum (if b then 1 else 0)
  | JNum n => JNum n
  | JStr s => StringToNumber rt s
  | JArr _ | JObj _ => StringToNumber rt (js_String v)
  end.

(** The integers a double holds exactly together with all integers between
    them and zero. *)
Definition exact_integer (n : Z) : bool := (- 2 ^ 53 <=? n)%Z && (n <=? 2 ^ 53)%Z.

(** [a * b]: the exact product where operands and product are exact
    integers, the runtime's rounded product elsewhere. *)
Definition js_times (a b : JValue) : JValue :=
  match ToNumber a, ToNumber b with
  | JNum x, JNum y =>
      if exact_integer x && exact_integer y && exact_integer (x * y)
      then JNum (x * y)
      else Number_times rt x y
  | _, _ => JNaN
  end.

(** [a + b] when both are already numbers. *)
Definition js_plus_numbers (a b : JValue) : JValue :=
  match a, b with
  | JNum x, JNum y =>
      if exact_integer x && exact_integer y && exact_integer (x + y)
      then JNum (x + y)
      else Number_plus rt x y
  | _, _ => JNaN
  end.

(** The loop of [generateRandomString]: [todo] iterations are left and
    [result] is what has been built. *)
Fixpoint generateRandomString_from (todo : nat) (result : string) : Js Browser string :=
  match todo with
  | O => ret result
  | Datatypes.S todo' =>
      k <~ gets random_draws ;;
      modify with_draw ;;;
      generateRandomString_from todo'
        (result +:+ charAt chars (Math_random_floor rt k (String.length chars)))
  end.

Definition generateRandomString (length : nat) : Js Browser string :=
  generateRandomString_from length "".

Definition generatePKCEFallback : Js Browser PKCE :=
  codeVerifier <~ generateRandomString 128 ;;
  ret {| pkce_verifier := codeVerifier;
         pkce_challenge := codeVerifier;
         pkce_method := "plain" |}.

Definition safePKCEGenerate : Js Browser PKCE :=
  try_catch (lift (generatePKCE rt)) (fun error => generatePKCEFallback).

(** Step 1 *)
Definition getAuthorizationUrl (method : string) : Js Browser AuthorizeResult :=
  let mode := if String.eqb method "claude-pro" then "max" else "console" in
  pkce <~ safePKCEGenerate ;;
  let url :=
    {| href_base := "https://"
         +:+ (if String.eqb mode "console" then "console.anthropic.com" else "claude.ai")
         +:+ "/oauth/authorize";
       searchParams := [] |} in
  let url := searchParams_set "code" "true" url in
  let url := searchParams_set "client_id" CLIENT_ID url in
  let url := searchParams_set "response_type" "code" url in
  let url := searchParams_set "redirect_uri"
               "https://console.anthropic.com/oauth/code/callback" url in
  let url := searchParams_set "scope"
               "org:create_api_key user:profile user:inference" url in
  let url := searchParams_set "code_challenge" (pkce_challenge pkce) url in
  let url := searchParams_set "code_challenge_method" "S256" url in
  let url := searchParams_set "state" (pkce_verifier pkce) url in
  ret {| auth_url := url; auth_verifier := pkce_verifier pkce |}.

Definition token_request (code verifier : string) : Request :=
  let splits := split_on "#" code in
  {| url := "/api/anthropic/oauth/token";
     method := "POST";
     req_headers := Headers_new [("Content-Type", "application/json")];
     req_body := Some (JSON_stringify rt (JObj
       [("code", match splits !! 0%nat with Some s => JStr s | None => JUndefined end);
        ("state", match splits !! 1%nat with Some s => JStr s | None => JUndefined end);
        ("grant_type", JStr "authorization_code");
        ("client_id", JStr CLIENT_ID);
        ("redirect_uri", JStr "https://console.anthropic.com/oauth/code/callback");
        ("code_verifier", JStr verifier)])) |}.

Definition api_key_request (access_token : JValue) : Request :=
  {| url := "/api/anthropic/oauth/api-key";
     method := "POST";
     req_headers := Headers_new [("Content-Type", "application/json")];
     req_body := Some (JSON_stringify rt (JObj [("access_token", access_token)])) |}.

(** Step 2 *)
Definition exchangeCode (code verifier method : string) : Js Browser ExchangeResult :=
  try_catch
    (response <~ fetch rt (token_request code verifier) ;;
     if negb (ok response) then ret just_failed
     else
       json <~ lift (json_of rt (body response)) ;;
       if String.eqb method "claude-pro" then
         refresh_token <~ lift (get_prop rt json "refresh_token") ;;
         access_token <~ lift (get_prop rt json "access_token") ;;
         expires_in <~ lift (get_prop rt json "expires_in") ;;
         ret {| type := success;
                refresh := refresh_token;
                access := access_token;
                expires := js_plus_numbers (JNum (Date_now rt))
                             (js_times expires_in (JNum 1000));
                key := JUndefined |}
       else if String.eqb method "api-key" then
         access_token <~ lift (get_prop rt json "access_token") ;;
         apiKeyResponse <~ fetch rt (api_key_request access_token) ;;
         if negb (ok apiKeyResponse) then ret just_failed
         else
           apiKeyResult <~ lift (json_of rt (body apiKeyResponse)) ;;
           raw_key <~ lift (get_prop rt apiKeyResult "raw_key") ;;
           ret {| type := success; refresh := JUndefined; access := JUndefined;
                  expires := JUndefined; key := raw_key |}
       else ret just_failed)
    (fun error => ret just_failed).

Definition credentials_request (body : JValue) : Request :=
  {| url := "/api/opencode/auth/anthropic";
     method := "PUT";
     req_headers := Headers_new [("Content-Type", "application/json")];
     req_body := Some (JSON_stringify rt body) |}.

(** Step 3 *)
Definition storeCredentials (result : ExchangeResult) : Js Browser bool :=
  match type result with
  | failed => ret false
  | success =>
      try_catch
        (let send (body : JValue) : Js Browser bool :=
           response <~ fetch rt (credentials_request body) ;;
           if negb (ok response) then ret false else ret true in
         if truthy (key result) then
           send (JObj [("type", JStr "api"); ("key", key result)])
         else if truthy (refresh result) && truthy (access result)
                 && truthy (expires result) then
           send (JObj [("type", JStr "oauth");
                       ("refresh", refresh result);
                       ("access", access result);
                       ("expires", expires result)])
         else ret false)
        (fun error => ret false)
  end.

Definition completeOAuthFlow (code verifier method : string) : Js Browser bool :=
  exchangeResult <~ exchangeCode code verifier method ;;
  match type exchangeResult with
  | failed => ret false
  | success => storeCredentials exchangeResult
  end.

End WithRuntime.
End AnthropicAuth.

(** ** [lib/auth-service.ts] *)

Module AuthService.
Import AnthropicAuth.

(** [AuthResult]; an absent optional field is [None]. *)
Record AuthResult : Type := mkAuthResult {
  ar_success : bool;
  authUrl : option URL;
  instructions : option string;
  message : option string;
  error : option string
}.

Definition succeeded (msg : string) : AuthResult :=
  {| ar_success := true; authUrl := None; instructions := None;
     message := Some msg; error := None |}.

Definition failure (err : string) : AuthResult :=
  {| ar_success := false; authUrl := None; instructions := None;
     message := None; error := Some err |}.

Section WithRuntime.
Context (rt : Runtime).
Local Open Scope js_scope.

Definition startAnthropicAuth (method : string) : Js Browser AuthResult :=
  try_catch
    (authData <~ getAuthorizationUrl rt method ;;
     setItem "anthropic_verifier" (auth_verifier authData) ;;;
     setItem "anthropic_method" method ;;;
     ret {| ar_success := true;
            authUrl := Some (auth_url authData);
            instructions := Some (if String.eqb method "claude-pro"
                                  then "Log in with your Claude Pro/Max account"
                                  else "Log in to create an API key");
            message := None; error := None |})
    (fun error => ret (failure "Failed to initialize authentication")).

Definition completeAnthropicAuth (authCode : string) : Js Browser AuthResult :=
  try_catch
    (verifier <~ getItem "anthropic_verifier" ;;
     method <~ getItem "anthropic_method" ;;
     match verifier, method with
     | Some verifier', Some method' =>
         if negb (truthy_str verifier') || negb (truthy_str method') then
           ret (failure
             "Missing authentication data. Please restart the authentication process.")
         else
           ok_flow <~ completeOAuthFlow rt authCode verifier' method' ;;
           if ok_flow : bool then
             removeItem "anthropic_verifier" ;;;
             removeItem "anthropic_method" ;;;
             ret (succeeded "Successfully authenticated with Anthropic Claude")
           else ret (failure "Failed to complete authentication")
     | _, _ =>
         ret (failure
           "Missing authentication data. Please restart the authentication process.")
     end)
    (fun error => ret (failure "Authentication error occurred")).

Definition clear_request (providerId : string) : Request :=
  {| url := "/api/opencode/auth/" +:+ providerId;
     method := "DELETE";
     req_headers := Headers_new [("Content-Type", "application/json")];
     req_body := None |}.

Definition clearAuth (providerId : string) : Js Browser AuthResult :=
  try_catch
    (response <~ fetch rt (clear_request providerId) ;;
     if negb (ok response) then
       ret (failure ("Failed to clear authentication for " +:+ providerId))
     else
       ret (succeeded ("Successfully cleared authentication for " +:+ providerId)))
    (fun error => ret (failure ("Failed to clear authentication for " +:+ providerId))).

End WithRuntime.
End AuthService.

(** ** [components/AnthropicAuth.tsx]: cancelling a login attempt *)

Module AnthropicAuthCard.

Record State : Type := mkState {
  authUrl : string;
  authCode : string;
  message : string;
  error : string
}.

Definition handleCancelAuth : Js (State * Browser) unit :=
  (set_state (fun _ => {| authUrl := ""; authCode := ""; message := ""; error := "" |}) ;;;
   in_browser (removeItem "anthropic_verifier") ;;;
   in_browser (removeItem "anthropic_method"))%js.

End AnthropicAuthCard.

(** ** [components/AuthStatus.tsx], the revision that mirrors the server's
    provider list *)

Module AuthStatus.
Import AuthService.

(** [providers] is whatever [setProviders] was given: a value from the
    response, or the empty array. *)
Record State : Type := mkState {
  providers : JValue;
  loading : bool;
  error : option string;
  showAuthModal : bool * JValue
}.

Definition initial : State :=
  {| providers := JArr []; loading := true; error := None;
     showAuthModal := (false, JNull) |}.

Definition setProviders (v : JValue) (st : State) : State :=
  {| providers := v; loading := loading st; error := error st;
     showAuthModal := showAuthModal st |}.

Definition setLoading (b : bool) (st : State) : State :=
  {| providers := providers st; loading := b; error := error st;
     showAuthModal := showAuthModal st |}.

Definition setError (e : option string) (st : State) : State :=
  {| providers := providers st; loading := loading st; error := e;
     showAuthModal := showAuthModal st |}.

Definition providers_request : Request :=
  {| url := "/api/opencode/config/providers"; method := "GET";
     req_headers := ∅; req_body := None |}.

(** The [Provider] interface on a parsed value: an object with a string
    [id] and [name], an array [models] and a boolean [authenticated]. *)
Definition is_Provider (p : JValue) : bool :=
  match p with
  | JObj _ =>
      match own_prop p "id", own_prop p "name", own_prop p "models",
            own_prop p "authenticated" with
      | JStr _, JStr _, JArr _, JBool _ => true
      | _, _, _, _ => false
      end
  | _ => false
  end.

(** The provider's [authenticated] flag is [true]. *)
Definition is_authenticated (p : JValue) : bool :=
  match own_prop p "authenticated" with
  | JBool true => true
  | _ => false
  end.

(** The rows of the card and what [render] returns. *)
Inductive RowButton : Type := Authenticate | Clear.

Record Row : Type := mkRow {
  row_name : JValue;
  row_models : JValue;
  row_status : string;
  row_color : string;
  row_authType : JValue;
  row_button : RowButton
}.

Inductive View : Type :=
| LoadingView
| ErrorView (message : string)
| StatusView (authenticatedCount totalCount : nat) (rows : list Row) (none_found : bool).

Section WithRuntime.
Context (rt : Runtime).
Local Open Scope js_scope.

(** [ps.find((p) => p.id === "anthropic")] *)
Fixpoint find_anthropic (ps : list JValue) : Completion JValue :=
  match ps with
  | [] => Normal JUndefined
  | p :: rest =>
      match get_prop rt p "id" with
      | Thrown e => Thrown e
      | Normal id => if strict_eq_str id "anthropic" then Normal p
                     else find_anthropic rest
      end
  end.

(** [data.providers?.find(...)]: skipped on [null]/[undefined]; on a value
    that is not an array, [find] is not a function. *)
Definition optional_find (ps : JValue) : Completion JValue :=
  match ps with
  | JUndefined | JNull => Normal JUndefined
  | JArr items => find_anthropic items
  | _ => Thrown (TypeError_message rt)
  end.

Definition fetchProviders : Js (State * Browser) unit :=
  try_finally
    (try_catch
       (set_state (setLoading true) ;;;
        set_state (setError None) ;;;
        response <~ fetch rt providers_request ;;
        if negb (ok response)
        then throw ("HTTP error! status: " +:+ pretty (status response))
        else
          data <~ lift (json_of rt (body response)) ;;
          data_providers <~ lift (get_prop rt data "providers") ;;
          anthropicProvider <~ lift (optional_find data_providers) ;;
          set_state (setProviders (js_or data_providers (JArr []))))
       (fun err => set_state (setError (Some err))))
    (set_state (setLoading false)).

(** [fetchProviders()] is started without [await]; it is run here to its
    end, and it never throws. *)
Definition handleClearAuth (providerId : string) : Js (State * Browser) unit :=
  try_catch
    (in_browser (clearAuth rt providerId) ;;;
     fetchProviders)
    (fun err => ret tt).

(** [xs.filter(f).length] with a callback that may throw. *)
Fixpoint count_truthy (f : JValue -> Completion JValue) (xs : list JValue) : Completion nat :=
  match xs with
  | [] => Normal O
  | x :: rest =>
      match f x with
      | Thrown e => Thrown e
      | Normal v =>
          match count_truthy f rest with
          | Thrown e => Thrown e
          | Normal n => Normal (if truthy v then Datatypes.S n else n)
          end
      end
  end.

Definition render_row (provider : JValue) : Completion Row :=
  match get_prop rt provider "name" with
  | Thrown e => Thrown e
  | Normal name =>
      match get_prop rt (own_prop provider "models") "length" with
      | Thrown e => Thrown e
      | Normal n =>
          let authenticated := truthy (own_prop provider "authenticated") in
          Normal {| row_name := name;
                    row_models := n;
                    row_status := if authenticated then "Authenticated"
                                  else "Not Authenticated";
                    row_color := if authenticated then "text-green-600"
                                 else "text-red-600";
                    row_authType := own_prop provider "authType";
                    row_button := if authenticated then Clear else Authenticate |}
      end
  end.

Fixpoint render_rows (ps : list JValue) : Completion (list Row) :=
  match ps with
  | [] => Normal []
  | p :: rest =>
      match render_row p with
      | Thrown e => Thrown e
      | Normal r =>
          match render_rows rest with
          | Thrown e => Thrown e
          | Normal rs => Normal (r :: rs)
          end
      end
  end.

(** The component body after the hooks: the two counts are computed first,
    then one of the three cards is returned. *)
Definition render (st : State) : Completion View :=
  match providers st with
  | JArr items =>
      match count_truthy (fun p => get_prop rt p "authenticated") items with
      | Thrown e => Thrown e
      | Normal authenticatedCount =>
          let totalCount := length items in
          if loading st then Normal LoadingView
          else if truthy_opt (error st)
          then Normal (ErrorView (default "" (error st)))
          else
            match render_rows items with
            | Thrown e => Thrown e
            | Normal rows =>
                Normal (StatusView authenticatedCount totalCount rows
                          (Nat.eqb (length items) 0))
            end
      end
  | _ => Thrown (TypeError_message rt)
  end.

End WithRuntime.
End AuthStatus.

(** ** [components/AuthStatus.tsx], the revision with the static provider list *)

Module AuthStatusStatic.
Import AuthService.

Record Provider : Type := mkProvider {
  id : string;
  name : string;
  description : string;
  authType : string
}.

Definition AVAILABLE_PROVIDERS : list Provider :=
  [ {| id := "anthropic"; name := "Anthropic Claude";
       description := "Claude 3.5 Sonnet, Claude 3 Haiku, and other Claude models";
       authType := "oauth" |};
    {| id := "openai"; name := "OpenAI";
       description := "GPT-4o, GPT-4, GPT-3.5, and other OpenAI models";
       authType := "api" |};
    {| id := "google"; name := "Google AI";
       description := "Gemini Pro, Gemini Flash, and other Google models";
       authType := "api" |};
    {| id := "mistral"; name := "Mistral AI";
       description := "Mistral Large, Mistral Medium, and other Mistral models";
       authType := "api" |} ].

Record State : Type := mkState {
  showAuthModal : bool * option Provider
}.

Definition handleClearAuth (rt : Runtime) (providerId : string) : Js (State * Browser) unit :=
  try_catch
    (in_browser (clearAuth rt providerId) ;;; ret tt)%js
    (fun err => ret tt).

End AuthStatusStatic.

(** ** [components/AiChat.tsx]: creating the session and subscribing to events *)

Module AiChat.

Inductive Role : Type := user | assistant.

Record Message : Type := mkMessage {
  id : string;
  role : Role;
  content : string;
  timestamp : Z
}.

(** The hooks of the widget: four [useState] cells and the
    [eventSourceRef]; [onError_calls] lists the messages handed to the
    [onError] prop, oldest first. *)
Record State : Type := mkState {
  messages : list Message;
  input : string;
  isLoading : bool;
  sessionId : JValue;
  eventSourceRef : option nat;
  onError_calls : list string
}.

Definition initial : State :=
  {| messages := []; input := ""; isLoading := false; sessionId := JNull;
     eventSourceRef := None; onError_calls := [] |}.

Definition setMessages (f : list Message -> list Message) (st : State) : State :=
  {| messages := f (messages st); input := input st; isLoading := isLoading st;
     sessionId := sessionId st; eventSourceRef := eventSourceRef st;
     onError_calls := onError_calls st |}.

Definition setSessionId (v : JValue) (st : State) : State :=
  {| messages := messages st; input := input st; isLoading := isLoading st;
     sessionId := v; eventSourceRef := eventSourceRef st;
     onError_calls := onError_calls st |}.

Definition set_eventSourceRef (r : option nat) (st : State) : State :=
  {| messages := messages st; input := input st; isLoading := isLoading st;
     sessionId := sessionId st; eventSourceRef := r;
     onError_calls := onError_calls st |}.

Definition onError (msg : string) (st : State) : State :=
  {| messages := messages st; input := input st; isLoading := isLoading st;
     sessionId := sessionId st; eventSourceRef := eventSourceRef st;
     onError_calls := onError_calls st ++ [msg] |}.

Definition close (es : EventSource) : EventSource :=
  {| es_url := es_url es; es_session := es_session es; es_closed := true |}.

Definition nl : string := String (ascii_of_nat 10) EmptyString.

Definition cannot_connect : string :=
  "❌ Unable to connect to OpenCode server. Please ensure:" +:+ nl +:+ nl
  +:+ "1. OpenCode server is running on port 3001" +:+ nl
  +:+ "2. You have proper authentication set up" +:+ nl
  +:+ "3. Try refreshing the page".

Section WithRuntime.
Context (rt : Runtime).
Local Open Scope js_scope.

Definition setupEventSource (sessionId : JValue) : Js (State * Browser) unit :=
  current <~ get_state eventSourceRef ;;
  match current with
  | Some i => in_browser (modify (with_event_sources (alter close i)))
  | None => ret tt
  end ;;;
  fresh_index <~ in_browser (gets (fun b => length (event_sources b))) ;;
  in_browser (modify (with_event_sources (fun l =>
    l ++ [ {| es_url := "/api/opencode/events"; es_session := sessionId;
              es_closed := false |} ]))) ;;;
  set_state (set_eventSourceRef (Some fresh_index)).

Definition session_request : Request :=
  {| url := "/api/opencode/session";
     method := "POST";
     req_headers := Headers_new [("Content-Type", "application/json")];
     req_body := Some (JSON_stringify rt (JObj
       [("title", JStr ("AI Chat - " +:+ Date_toLocaleString rt))])) |}.

(** The inner [try { ... } catch {}] of the error branch: the [error] field
    of the parsed body if that is truthy, else the body text. *)
Definition parse_error (errorText : string) : JValue :=
  match JSON_parse rt errorText with
  | Thrown _ => JStr errorText
  | Normal errorObj =>
      match get_prop rt errorObj "error" with
      | Thrown _ => JStr errorText
      | Normal e => js_or e (JStr errorText)
      end
  end.

Definition createSession : Js (State * Browser) unit :=
  try_catch
    (response <~ fetch rt session_request ;;
     if negb (ok response) then
       let errorText := text_of (body response) in
       let parsedError := parse_error errorText in
       throw ("Failed to create session (" +:+ pretty (status response) +:+ "): "
              +:+ js_String parsedError)
     else
       session <~ lift (json_of rt (body response)) ;;
       session_id <~ lift (get_prop rt session "id") ;;
       set_state (setSessionId session_id) ;;;
       setupEventSource session_id)
    (fun errorMsg =>
       set_state (onError errorMsg) ;;;
       set_state (setMessages (fun prev =>
         prev ++ [ {| id := pretty (Date_now rt); role := assistant;
                      content := cannot_connect; timestamp := Date_now rt |} ]))).

End WithRuntime.
End AiChat.

(** ** Sample runtimes, used to run the definitions on concrete inputs *)

Module Samples.
Import Relay.

Definition quote : string := String (ascii_of_nat 34) EmptyString.

(** A small serializer in the manner of [JSON.stringify] (no escaping;
    [undefined] fields are skipped, [undefined] items and [NaN] become
    [null]). *)
Fixpoint stringify (v : JValue) : string :=
  match v with
  | JUndefined | JNull | JNaN => "null"
  | JBool true => "true"
  | JBool false => "false"
  | JNum n => pretty n
  | JStr s => quote +:+ s +:+ quote
  | JArr items => "[" +:+ String.concat "," (map stringify items) +:+ "]"
  | JObj fields =>
      "{" +:+ String.concat ","
        ((fix members (l : list (string * JValue)) : list string :=
            match l with
            | [] => []
            | (_, JUndefined) :: rest => members rest
            | (k, x) :: rest =>
                (quote +:+ k +:+ quote +:+ ":" +:+ stringify x) :: members rest
            end) fields)
      +:+ "}"
  end.

(** A parser that knows the serializations of the values in [known]. *)
Fixpoint parse_among (known : list JValue) (s : string) : Completion JValue :=
  match known with
  | [] => Thrown "SyntaxError: JSON Parse error"
  | v :: rest => if String.eqb s (stringify v) then Normal v else parse_among rest s
  end.

Definition session_ses_1 : JValue := JObj [("id", JStr "ses_1")].

Definition provider (pid pname : string) (authenticated : bool) : JValue :=
  JObj [("id", JStr pid); ("name", JStr pname);
        ("models", JArr [JStr "m1"; JStr "m2"]);
        ("authenticated", JBool authenticated)].

Definition three_providers : JValue :=
  JObj [("providers", JArr [provider "anthropic" "Anthropic" true;
                            provider "openai" "OpenAI" false;
                            provider "google" "Google" true]);
        ("default", JObj [])].

Definition token_reply : JValue :=
  JObj [("access_token", JStr "at"); ("refresh_token", JStr "rt");
        ("expires_in", JNum 3600)].

Definition known_values : list JValue :=
  [session_ses_1; three_providers; token_reply; JObj [("access_token", JStr "at")]].

(** The double nearest to an integer, ties to the even significand (a
    magnitude beyond the largest double is not among these samples). *)
Definition nearest_double (z : Z) : JValue :=
  let a := Z.abs z in
  let e := (Z.log2 a - 52)%Z in
  if (e <=? 0)%Z then JNum z
  else
    let q := Z.shiftr a e in
    let r := (a - Z.shiftl q e)%Z in
    let half := Z.shiftl 1 (e - 1) in
    let q' := if (half <? r)%Z || ((r =? half)%Z && Z.odd q) then (q + 1)%Z else q in
    JNum (Z.sgn z * Z.shiftl q' e).

(** A runtime around a given network; [generatePKCE] fails as it does
    without [crypto.subtle], so the fallback generator is used; the
    [Response] constructor follows the Fetch standard. *)
Definition runtime (network : list Request -> Request -> FetchOutcome) : Runtime :=
  {| net := network;
     JSON_parse := parse_among known_values;
     JSON_stringify := stringify;
     StringToNumber := fun _ => JNaN;
     TypeError_message := "TypeError";
     Date_now := 1700000000000;
     Date_toLocaleString := "1/1/2025, 12:00:00 PM";
     generatePKCE := Thrown "crypto.subtle is undefined";
     Math_random_floor := fun k n => (7 * k + 3) mod n;
     Number_times := fun x y => nearest_double (x * y);
     Number_plus := fun x y => nearest_double (x + y);
     RangeError_message := "RangeError: status must be in the range 200 to 599";
     null_body_TypeError := Some "TypeError: a null-body status cannot have a body" |}.

Definition reply (st : Z) (content_type : string) (text : string) : Response :=
  {| status := st; statusText := "";
     headers := Headers_new [("Content-Type", content_type)];
     body := Some text |}.

(** Networks: nothing answers; everything answers with one response. *)
Definition unreachable : list Request -> Request -> FetchOutcome :=
  fun _ _ => Rejected "Unable to connect".

Definition always (r : Response) : list Request -> Request -> FetchOutcome :=
  fun _ _ => Responded r.

(** The relay in front of an upstream, as the network the page talks to,
    for requests to [/api/opencode/session] (POST),
    [/api/opencode/auth/:id] (other methods than PUT and OPTIONS reach the
    catch-all) and [/api/opencode/config/providers]. *)
Definition via_relay (upstream : list Request -> Request -> FetchOutcome)
    : list Request -> Request -> FetchOutcome :=
  fun _ r =>
    let incoming :=
      {| in_method := method r; in_pathname := url r; in_search := "";
         in_param_id := ""; in_headers := req_headers r; in_body := req_body r |} in
    let endpoint :=
      if String.eqb (url r) "/api/opencode/session" && String.eqb (method r) "POST"
      then Session_POST else CatchAll in
    match (serve (runtime upstream) endpoint incoming).1 with
    | Normal resp => Responded resp
    | Thrown e => Rejected e
    end.

Definition get_providers : BunRequest :=
  {| in_method := "GET"; in_pathname := "/api/opencode/config/providers";
     in_search := ""; in_param_id := ""; in_headers := ∅; in_body := None |}.

Definition put_auth : BunRequest :=
  {| in_method := "PUT"; in_pathname := "/api/opencode/auth/openai";
     in_search := ""; in_param_id := "openai";
     in_headers := Headers_new [("Content-Type", "application/json")];
     in_body := Some (stringify (JObj [("type", JStr "api"); ("key", JStr "sk-1")])) |}.

Definition post_token : BunRequest :=
  {| in_method := "POST"; in_pathname := "/api/anthropic/oauth/token";
     in_search := ""; in_param_id := "";
     in_headers := Headers_new [("Content-Type", "application/json")];
     in_body := Some (stringify token_reply) |}.

(** A page in the middle of a login attempt. *)
Definition logging_in : Browser :=
  {| sessionStorage := <["anthropic_method" := "claude-pro"]>
                         (<["anthropic_verifier" := "verifier-1"]> ∅);
     requests := []; random_draws := 0; event_sources := [] |}.

End Samples.

(** ** Kinds of relay handlers *)

Module RelayKinds.
Import Relay.

(** The preflight handlers. *)
Definition is_options (e : Endpoint) : bool :=
  match e with
  | OAuthToken_OPTIONS | OAuthApiKey_OPTIONS | Auth_OPTIONS
  | Session_OPTIONS | Message_OPTIONS => true
  | _ => false
  end.

(** The [Access-Control-Allow-Methods] value of each preflight handler. *)
Definition allowed_methods (e : Endpoint) : string :=
  match e with
  | OAuthToken_OPTIONS | OAuthApiKey_OPTIONS => "POST, OPTIONS"
  | Auth_OPTIONS => "PUT, OPTIONS"
  | _ => "GET, POST, PUT, DELETE, OPTIONS"
  end.

(** [method !== "GET" && method !== "HEAD"] *)
Definition carries_body (m : string) : bool :=
  negb (String.eqb m "GET") && negb (String.eqb m "HEAD").

(** The content type the catch-all sends upstream: the request's if it has
    a non-empty one, else [application/json]. *)
Definition forwarded_content_type (req : BunRequest) : string :=
  match Headers_get (in_headers req) "content-type" with
  | Some ct => if truthy_str ct then ct else "application/json"
  | None => "application/json"
  end.

End RelayKinds.

(** ** The connectivity test of the relay ([src/index.tsx], ["/api/test/opencode"]) *)

Module Diagnostics.
Import Relay.

Definition config_request : Request :=
  {| url := "http://0.0.0.0:3001/config"; method := "GET";
     req_headers := ∅; req_body := None |}.

Section Handlers.
Context {S : Type} `{Net S} (rt : Runtime).
Local Open Scope js_scope.

(** [Response.json(data)] without a status is a 200. *)
Definition test_opencode (req : BunRequest) : Js S Response :=
  try_catch
    (response <~ fetch rt config_request ;;
     if ok response then
       ret (Response_json rt
              (JObj [("status", JStr "connected");
                     ("message", JStr "OpenCode server is accessible");
                     ("port", JNum 3001)]) 200 [])
     else
       ret (Response_json rt
              (JObj [("status", JStr "error");
                     ("message", JStr ("OpenCode server responded with "
                                       +:+ pretty (status response)));
                     ("port", JNum 3001)]) 502 []))
    (fun error =>
       ret (Response_json rt
              (JObj [("status", JStr "unreachable");
                     ("message", JStr "Cannot connect to OpenCode server");
                     ("error", JStr error);
                     ("port", JNum 3001)]) 502 [])).

End Handlers.
End Diagnostics.

(** ** [lib/auth-service.ts]: storing a plain API key

    [String.prototype.trim] is a parameter, [trim]. *)

Module ApiKeys.
Import AuthService.

Section WithRuntime.
Context (rt : Runtime) (trim : string -> string).
Local Open Scope js_scope.

Definition api_key_put (provider apiKey : string) : Request :=
  {| url := "/api/opencode/auth/" +:+ provider;
     method := "PUT";
     req_headers := Headers_new [("Content-Type", "application/json")];
     req_body := Some (JSON_stringify rt
                   (JObj [("type", JStr "api"); ("key", JStr apiKey)])) |}.

Definition storeApiKey (provider apiKey : string) : Js Browser AuthResult :=
  if negb (truthy_str (trim apiKey)) then
    ret (failure "API key cannot be empty")
  else
    try_catch
      (response <~ fetch rt (api_key_put provider apiKey) ;;
       if negb (ok response) then
         ret (failure ("Failed to store " +:+ provider +:+ " API key"))
       else
         ret (succeeded ("Successfully stored " +:+ provider +:+ " API key")))
      (fun error => ret (failure ("Failed to store " +:+ provider +:+ " API key"))).

End WithRuntime.
End ApiKeys.

(** ** [components/ApiKeyAuth.tsx]: submitting the key form *)

Module ApiKeyAuth.
Import AuthService ApiKeys.

(** The four [useState] cells; [onAuthSuccess_calls] counts the calls of
    the [onAuthSuccess] prop. *)
Record State : Type := mkState {
  apiKey : string;
  isLoading : bool;
  message : string;
  error : string;
  onAuthSuccess_calls : nat
}.

Definition setApiKey (v : string) (st : State) : State :=
  {| apiKey := v; isLoading := isLoading st; message := message st;
     error := error st; onAuthSuccess_calls := onAuthSuccess_calls st |}.

Definition setIsLoading (v : bool) (st : State) : State :=
  {| apiKey := apiKey st; isLoading := v; message := message st;
     error := error st; onAuthSuccess_calls := onAuthSuccess_calls st |}.

Definition setMessage (v : string) (st : State) : State :=
  {| apiKey := apiKey st; isLoading := isLoading st; message := v;
     error := error st; onAuthSuccess_calls := onAuthSuccess_calls st |}.

Definition setError (v : string) (st : State) : State :=
  {| apiKey := apiKey st; isLoading := isLoading st; message := message st;
     error := v; onAuthSuccess_calls := onAuthSuccess_calls st |}.

Definition onAuthSuccess (st : State) : State :=
  {| apiKey := apiKey st; isLoading := isLoading st; message := message st;
     error := error st; onAuthSuccess_calls := Datatypes.S (onAuthSuccess_calls st) |}.

(** [o || fallback] for an optional string. *)
Definition or_else (o : option string) (fallback : string) : string :=
  match o with
  | Some s => if truthy_str s then s else fallback
  | None => fallback
  end.

Section WithRuntime.
Context (rt : Runtime) (trim : string -> string).
Local Open Scope js_scope.

Definition clearMessages : Js (State * Browser) unit :=
  set_state (setMessage "") ;;; set_state (setError "").

Definition handleSubmit (providerId : string) : Js (State * Browser) unit :=
  apiKey <~ get_state apiKey ;;
  if negb (truthy_str (trim apiKey)) then
    set_state (setError "Please enter an API key")
  else
    clearMessages ;;;
    set_state (setIsLoading true) ;;;
    try_finally
      (try_catch
         (result <~ in_browser (storeApiKey rt trim providerId apiKey) ;;
          if ar_success result then
            set_state (setMessage (or_else (AuthService.message result)
                                           "API key saved successfully!")) ;;;
            set_state (setApiKey "") ;;;
            set_state onAuthSuccess
          else
            set_state (setError (or_else (AuthService.error result)
                                         "Failed to save API key")))
         (fun err => set_state (setError "Failed to save API key")))
      (set_state (setIsLoading false)).

End WithRuntime.
End ApiKeyAuth.

(** ** [components/AiChat.tsx]: sending a message

    A pending [setTimeout] is kept next to the widget's state as the delay
    and the session its callback polls ([fetchLatestMessages(sessionId)]). *)

Module AiChatSend.
Import AiChat.

Record Timer : Type := mkTimer {
  delay : Z;
  poll_session : JValue
}.

Definition setInput (v : string) (st : State) : State :=
  {| messages := messages st; input := v; isLoading := isLoading st;
     sessionId := sessionId st; eventSourceRef := eventSourceRef st;
     onError_calls := onError_calls st |}.

Definition setIsLoading (v : bool) (st : State) : State :=
  {| messages := messages st; input := input st; isLoading := v;
     sessionId := sessionId st; eventSourceRef := eventSourceRef st;
     onError_calls := onError_calls st |}.

(** The widget with its pending timers. *)
Definition on_chat (f : State -> State) (s : State * list Timer) : State * list Timer :=
  (f s.1, s.2).

Definition setTimeout (t : Timer) (s : State * list Timer) : State * list Timer :=
  (s.1, s.2 ++ [t]).

Section WithRuntime.
Context (rt : Runtime) (trim : string -> string).
Local Open Scope js_scope.

Definition message_request (sessionId : JValue) (text : string) : Request :=
  {| url := "/api/opencode/session/" +:+ js_String sessionId +:+ "/message";
     method := "POST";
     req_headers := Headers_new [("Content-Type", "application/json")];
     req_body := Some (JSON_stringify rt (JObj
       [("model", JObj [("providerID", JStr "anthropic");
                        ("modelID", JStr "claude-3-5-sonnet-20241022")]);
        ("parts", JArr [JObj [("type", JStr "text"); ("text", JStr text)]])])) |}.

Definition sendMessage : Js ((State * list Timer) * Browser) unit :=
  st <~ get_state fst ;;
  if negb (truthy_str (trim (input st))) || negb (truthy (sessionId st)) || isLoading st
  then ret tt
  else
    let userMessage :=
      {| id := pretty (Date_now rt); role := user;
         content := trim (input st); timestamp := Date_now rt |} in
    set_state (on_chat (setMessages (fun prev => prev ++ [userMessage]))) ;;;
    set_state (on_chat (setInput "")) ;;;
    set_state (on_chat (setIsLoading true)) ;;;
    try_catch
      (response <~ fetch rt (message_request (sessionId st) (trim (input st))) ;;
       if negb (ok response) then
         throw ("Failed to send message: " +:+ pretty (status response))
       else
         set_state (setTimeout {| delay := 2000; poll_session := sessionId st |}))
      (fun errorMsg =>
         set_state (on_chat (onError errorMsg)) ;;;
         set_state (on_chat (setIsLoading false)) ;;;
         set_state (on_chat (setMessages (fun prev =>
           prev ++ [ {| id := pretty (Date_now rt); role := assistant;
                        content := "Error: " +:+ errorMsg;
                        timestamp := Date_now rt |} ])))).

(** [clearChat] *)
Definition clearChat : Js ((State * list Timer) * Browser) unit :=
  set_state (on_chat (setMessages (fun _ => []))) ;;;
  set_state (on_chat (setInput "")) ;;;
  set_state (on_chat (setIsLoading false)).

End WithRuntime.
End AiChatSend.

(** ** Notions used to state properties of [lib/anthropic-auth.ts] *)

Module AuthNotions.
Import AnthropicAuth.

(** Every character of [s] occurs in [alphabet]. *)
Definition drawn_from (alphabet s : string) : Prop :=
  Forall (fun c => In c (list_ascii_of_string alphabet)) (list_ascii_of_string s).

(** [s] has no ['#']. *)
Definition hash_free (s : string) : Prop :=
  Forall (fun c => c <> "#"%char) (list_ascii_of_string s).

(** The object [storeCredentials] sends for a result it can store: the
    API-key form when [key] is truthy, else the OAuth form. *)
Definition credentials_of (result : ExchangeResult) : JValue :=
  if truthy (key result)
  then JObj [("type", JStr "api"); ("key", key result)]
  else JObj [("type", JStr "oauth");
             ("refresh", refresh result);
             ("access", access result);
             ("expires", expires result)].

(** [result] has something [storeCredentials] can store. *)
Definition storable (result : ExchangeResult) : bool :=
  truthy (key result)
  || (truthy (refresh result) && truthy (access result) && truthy (expires result)).

(** The body of the token request for a code and state. *)
Definition token_body (code state : JValue) (verifier : string) : JValue :=
  JObj [("code", code);
        ("state", state);
        ("grant_type", JStr "authorization_code");
        ("client_id", JStr CLIENT_ID);
        ("redirect_uri", JStr "https://console.anthropic.com/oauth/code/callback");
        ("code_verifier", JStr verifier)].

End AuthNotions.

(** ** Notions used to state properties of the chat widget *)

Module ChatNotions.

(** Every [EventSource] other than the referenced one has been closed. *)
Definition others_closed (ref : option nat) (sources : list EventSource) : Prop :=
  forall i es, sources !! i = Some es -> ref <> Some i -> es_closed es = true.

(** What a chat message shows: who said it and the text. *)
Definition said (m : AiChat.Message) : AiChat.Role * string :=
  (AiChat.role m, AiChat.content m).

(** The message a failed fetch is reported with: the rejection's message,
    or [prefix] followed by the status of a non-2xx response. *)
Definition failure_message (prefix : string) (o : FetchOutcome) : string :=
  match o with
  | Rejected m => m
  | Responded r => prefix +:+ pretty (status r)
  end.

End ChatNotions.

(** ** More sample inputs *)

Module MoreSamples.
Import Samples.

(** Removing leading and trailing spaces, standing in for [trim]. *)
Fixpoint drop_spaces (l : list ascii) : list ascii :=
  match l with
  | c :: rest => if Ascii.eqb c " " then drop_spaces rest else l
  | [] => []
  end.

Definition trim_spaces (s : string) : string :=
  string_of_list_ascii
    (rev (drop_spaces (rev (drop_spaces (list_ascii_of_string s))))).

(** A network that answers the request with the given URL with one
    response and every other request with another. *)
Definition answer_at (u : string) (there elsewhere : Response)
    : list Request -> Request -> FetchOutcome :=
  fun _ r => Responded (if String.eqb (url r) u then there else elsewhere).

(** A runtime like [runtime] with a parser for other values. *)
Definition runtime_knowing (known : list JValue)
    (network : list Request -> Request -> FetchOutcome) : Runtime :=
  {| net := network;
     JSON_parse := parse_among known;
     JSON_stringify := stringify;
     StringToNumber := fun _ => JNaN;
     TypeError_message := "TypeError";
     Date_now := 1700000000000;
     Date_toLocaleString := "1/1/2025, 12:00:00 PM";
     generatePKCE := Thrown "crypto.subtle is undefined";
     Math_random_floor := fun k n => (7 * k + 3) mod n;
     Number_times := fun x y => nearest_double (x * y);
     Number_plus := fun x y => nearest_double (x + y);
     RangeError_message := "RangeError: status must be in the range 200 to 599";
     null_body_TypeError := Some "TypeError: a null-body status cannot have a body" |}.

Definition raw_key_reply : JValue := JObj [("raw_key", JStr "sk-ant-1")].

(** A chat widget with a session, about to send [" hello "]. *)
Definition typing : AiChat.State * list AiChatSend.Timer :=
  ({| AiChat.messages := []; AiChat.input := " hello "; AiChat.isLoading := false;
      AiChat.sessionId := JStr "ses_1"; AiChat.eventSourceRef := Some 0%nat;
      AiChat.onError_calls := [] |}, []).

Definition key_form : ApiKeyAuth.State :=
  {| ApiKeyAuth.apiKey := "sk-1"; ApiKeyAuth.isLoading := false;
     ApiKeyAuth.message := ""; ApiKeyAuth.error := "old";
     ApiKeyAuth.onAuthSuccess_calls := 0 |}.

End MoreSamples.

(** * Properties *)

(** ** The relay *)

Module RelayFacts.
Import Relay Samples.

Lemma Headers_get_set_same (name value : string) (h : Headers) :
  Headers_get (Headers_set name value h) name = Some value.
Proof. unfold Headers_get, Headers_set. apply lookup_insert_eq. Qed.

Lemma Headers_get_set_other (n1 n2 value : string) (h : Headers) :
  lower n1 <> lower n2 ->
  Headers_get (Headers_set n1 value h) n2 = Headers_get h n2.
Proof. intros Hne. unfold Headers_get, Headers_set. by apply lookup_insert_ne. Qed.

Lemma Response_json_cors rt data st :
  Headers_get (headers (Response_json rt data st [("Access-Control-Allow-Origin", "*")]))
    "Access-Control-Allow-Origin" = Some "*".
Proof. reflexivity. Qed.

Lemma Response_json_bare_no_cors rt data st :
  Headers_get (headers (Response_json rt data st [])) "Access-Control-Allow-Origin" = None.
Proof. reflexivity. Qed.

(** The constructor and a text body: built when the status is taken,
    an error otherwise. *)
Lemma construct_Response_cases rt t st h :
  (takes_status rt st = true
   /\ construct_Response rt (Some t) st h
      = Normal {| status := st; statusText := EmptyString; headers := h; body := Some t |})
  \/ (takes_status rt st = false
      /\ exists message, construct_Response rt (Some t) st h = Thrown message).
Proof.
  unfold construct_Response, Response_refused, takes_status.
  destruct (status_in_range st); cbn [negb andb]; [|right; eauto].
  destruct (null_body_status st); cbn [negb andb]; [|left; auto].
  destruct (null_body_TypeError rt); cbn [negb]; [right; eauto | left; auto].
Qed.

Lemma new_Response_cases rt t st h :
  (takes_status rt st = true
   /\ new_Response rt (Some t) st h
      = Normal {| status := st; statusText := EmptyString;
                  headers := Headers_new h; body := Some t |})
  \/ (takes_status rt st = false
      /\ exists message, new_Response rt (Some t) st h = Thrown message).
Proof. apply construct_Response_cases. Qed.

(** With status 200 the constructor builds the response, whatever the body. *)
Lemma new_Response_200 rt b h :
  new_Response rt b 200 h
  = Normal {| status := 200; statusText := EmptyString; headers := Headers_new h; body := b |}.
Proof. reflexivity. Qed.

Lemma forward_back_cases rt up :
  (takes_status rt (status up) = true
   /\ exists resp,
        forward_back rt up = Normal resp
        /\ status resp = status up
        /\ body resp = Some (text_of (body up))
        /\ Headers_get (headers resp) "Content-Type" = upstream_content_type up
        /\ Headers_get (headers resp) "Access-Control-Allow-Origin" = Some "*")
  \/ (takes_status rt (status up) = false
      /\ exists message, forward_back rt up = Thrown message).
Proof.
  unfold forward_back.
  match goal with
  | |- context [construct_Response rt (Some ?t) ?st ?h] =>
      destruct (construct_Response_cases rt t st h) as [[Ht ->]|[Ht [message ->]]]
  end; [left | right; eauto].
  split; [exact Ht|]. eexists; split; [reflexivity|]. cbn [status body headers].
  split; [reflexivity|]. split; [reflexivity|]. unfold upstream_content_type.
  destruct (Headers_get (headers up) "content-type") as [ct|]; [|split; reflexivity].
  destruct (truthy_str ct); [|split; reflexivity].
  split; [apply (Headers_get_set_same "content-type")|].
  rewrite Headers_get_set_other; [reflexivity | vm_compute; discriminate].
Qed.

Lemma takes_status_in_range rt st : takes_status rt st = true -> status_in_range st = true.
Proof. unfold takes_status. intros Ht. apply andb_prop in Ht. tauto. Qed.

Lemma takes_status_plain rt st :
  status_in_range st = true -> null_body_status st = false -> takes_status rt st = true.
Proof. unfold takes_status. intros -> ->. reflexivity. Qed.

#[local] Opaque Headers_new Headers_set Headers_get Response_json new_Response
  forward_back pretty.

Ltac run_handler :=
  cbv beta iota zeta delta
    [serve handler oauth_token_POST oauth_token_OPTIONS oauth_api_key_POST
     oauth_api_key_OPTIONS auth_PUT auth_OPTIONS session_GET session_POST
     session_OPTIONS message_GET message_POST message_OPTIONS events catch_all
     try_catch bind lift fetch ret throw sent record_request relay_net];
  rewrite ?app_nil_l.

(** What the [Response] constructor does with the upstream status. *)
Ltac settle_response :=
  rewrite ?new_Response_200;
  repeat match goal with
  | |- context [new_Response ?rt (Some ?t) (status ?r) ?h] =>
      let Ht := fresh "Htakes" in
      let message := fresh "message" in
      destruct (new_Response_cases rt t (status r) h) as [[Ht ->]|[Ht [message ->]]]
  | |- context [forward_back ?rt ?r] =>
      let Ht := fresh "Htakes" in
      let back := fresh "back" in
      let message := fresh "message" in
      destruct (forward_back_cases rt r)
        as [[Ht (back & -> & Hstatus & Hbody & Htype & Hcors)]|[Ht [message ->]]]
  end; cbv beta iota.

Ltac split_cases :=
  repeat match goal with
  | |- context [json_of ?rt ?b] => destruct (json_of rt b) eqn:?
  | |- context [get_prop ?rt ?v ?k] => destruct (get_prop rt v k) eqn:?
  | |- context [net ?rt ?h ?q] => destruct (net rt h q) eqn:?
  | |- context [ok ?r] => destruct (ok r) eqn:?
  end; cbv beta iota delta [negb]; settle_response.

Ltac only_request H :=
  first [ apply elem_of_nil in H; contradiction
        | apply list_elem_of_singleton in H; subst ].

Ltac clash :=
  match goal with
  | H1 : net ?rt ?h ?a = Responded ?x, H2 : net ?rt ?h ?b = Rejected ?m |- _ =>
      exfalso; pose proof (eq_trans (eq_sym H1) H2) as Hclash; discriminate Hclash
  end.

Ltac same_response up :=
  match goal with
  | H1 : net ?rt ?h ?a = Responded ?x, H2 : net ?rt ?h ?b = Responded up |- _ =>
      let Hsame := fresh "Hsame" in
      pose proof (eq_trans (eq_sym H1) H2) as Hsame;
      injection Hsame as Hsame; try subst x
  end.

(** Every handler returns a response (it never throws) and sends at most
    one request upstream. *)
Lemma serve_returns rt e req :
  exists resp trace, serve rt e req = (Normal resp, trace) /\ length trace <= 1.
Proof.
  destruct e; run_handler; split_cases;
    eexists; eexists; (split; [reflexivity | cbn [length app]; lia]).
Qed.

(** C2, as amended: when the upstream fetch is rejected, the OpenCode
    handlers (auth, session, message, events, catch-all) answer 502 and the
    two Anthropic OAuth handlers answer 500; in both cases the body is the
    handler's fixed JSON error object. *)
Theorem relay_upstream_unreachable rt e req c trace r msg :
  serve rt e req = (c, trace) ->
  r ∈ trace ->
  net rt [] r = Rejected msg ->
  exists resp,
    c = Normal resp
    /\ status resp = (if is_anthropic e then 500 else 502)%Z
    /\ body resp = Some (JSON_stringify rt (error_body (unreachable_message e))).
Proof.
  intros Hserve Hin Hr; revert Hserve.
  destruct e; run_handler; split_cases;
    intros [= <- <-]; only_request Hin;
    try clash;
    (eexists; split; [reflexivity | split; reflexivity]).
Qed.

Lemma relay_upstream_unreachable_witness :
  exists resp,
    (serve (runtime unreachable) CatchAll get_providers).1 = Normal resp
    /\ status resp = 502%Z
    /\ body resp = Some (stringify (error_body "Failed to connect to OpenCode server")).
Proof.
  destruct (serve (runtime unreachable) CatchAll get_providers) as [c trace] eqn:E.
  assert (Hin : {| url := "http://0.0.0.0:3001/config/providers"; method := "GET";
                   req_headers := Headers_new json_content; req_body := None |} ∈ trace).
  { vm_compute in E. injection E as _ <-. apply list_elem_of_singleton. reflexivity. }
  exact (relay_upstream_unreachable (runtime unreachable) CatchAll get_providers
           c trace _ "Unable to connect" E Hin eq_refl).
Defined.

(** C2 as stated fails: with the upstream unreachable, the OAuth token
    handler answers 500, not 502. *)
Lemma oauth_token_unreachable_not_502 :
  exists r resp msg,
    serve (runtime unreachable) OAuthToken_POST post_token = (Normal resp, [r])
    /\ net (runtime unreachable) [] r = Rejected msg
    /\ status resp = 500%Z
    /\ status resp <> 502%Z.
Proof.
  eexists; eexists; eexists. split; [reflexivity|].
  split; [reflexivity|]. split; [reflexivity|]. vm_compute. discriminate.
Qed.

(** C3, as amended: when the upstream responds with a status the
    [Response] constructor takes (200 to 599, and on a runtime that refuses a
    body with a null-body status, not one of those), the catch-all and the
    session and message handlers answer with the upstream status and with
    the upstream content type if it named a non-empty one (and set none
    otherwise); the auth PUT handler and the two Anthropic OAuth handlers
    answer with the upstream status but always declare [application/json].
    For any other upstream status the constructor throws inside the
    handler's [try], and the answer is the handler's own error: 502, or 500
    from the OAuth handlers.  The events handler copies neither: it answers
    200 with [text/event-stream] to every OK upstream status and 502 to
    every other one. *)
Theorem relay_upstream_responded rt e req c trace r up :
  serve rt e req = (c, trace) ->
  r ∈ trace ->
  net rt [] r = Responded up ->
  exists resp,
    c = Normal resp
    /\ (copies_content_type e = true ->
          if takes_status rt (status up)
          then status resp = status up
               /\ Headers_get (headers resp) "Content-Type" = upstream_content_type up
          else bad_gateway rt (unreachable_message e) resp)
    /\ (declares_json e = true ->
          if takes_status rt (status up)
          then status resp = status up
               /\ Headers_get (headers resp) "Content-Type" = Some "application/json"
          else status resp = (if is_anthropic e then 500 else 502)%Z
               /\ body resp = Some (JSON_stringify rt (error_body (unreachable_message e))))
    /\ (e = Events ->
          if ok up
          then status resp = 200%Z
               /\ Headers_get (headers resp) "Content-Type" = Some "text/event-stream"
          else bad_gateway rt (unreachable_message e) resp).
Proof.
  intros Hserve Hin Hr; revert Hserve.
  destruct e; run_handler; split_cases;
    intros [= <- <-]; only_request Hin;
    try (match goal with
         | H1 : net ?rt ?h ?a = Rejected ?m, H2 : net ?rt ?h ?b = Responded ?x |- _ =>
             exfalso; pose proof (eq_trans (eq_sym H1) H2) as Hclash; discriminate Hclash
         end);
    same_response up;
    (eexists; split; [reflexivity |]);
    (split; [|split]; intros Hkind; try discriminate Hkind);
    try (exfalso; congruence);
    repeat match goal with
    | H : takes_status _ _ = _ |- _ => rewrite H
    | H : ok _ = _ |- _ => rewrite H
    end;
    unfold bad_gateway; auto.
Qed.

Lemma relay_upstream_responded_witness :
  (exists resp,
     (serve (runtime (always (reply 201 "text/plain" "ok"))) CatchAll get_providers).1
       = Normal resp
     /\ status resp = 201%Z
     /\ Headers_get (headers resp) "Content-Type" = Some "text/plain").
Proof.
  destruct (serve (runtime (always (reply 201 "text/plain" "ok"))) CatchAll get_providers)
    as [c trace] eqn:E.
  assert (Hin : {| url := "http://0.0.0.0:3001/config/providers"; method := "GET";
                   req_headers := Headers_new json_content; req_body := None |} ∈ trace).
  { vm_compute in E. injection E as _ <-. apply list_elem_of_singleton. reflexivity. }
  destruct (relay_upstream_responded
              (runtime (always (reply 201 "text/plain" "ok"))) CatchAll get_providers
              c trace _ (reply 201 "text/plain" "ok") E Hin eq_refl)
    as (resp & Hc & Hcopy & _).
  exact (ex_intro _ resp (conj Hc (Hcopy eq_refl))).
Defined.

(** C3 as stated fails in three ways.  The upstream answers the auth PUT
    with [text/plain], the relay's answer says [application/json].  The
    upstream answers the events request with status 201, the relay answers
    200.  The upstream answers the catch-all with status 999, which the
    [Response] constructor refuses, and the relay answers 502. *)
Lemma relay_answer_differs_from_upstream :
  (let up := reply 200 "text/plain" "ok" in
   exists r resp,
     serve (runtime (always up)) Auth_PUT put_auth = (Normal resp, [r])
     /\ net (runtime (always up)) [] r = Responded up
     /\ Headers_get (headers up) "Content-Type" = Some "text/plain"
     /\ Headers_get (headers resp) "Content-Type" = Some "application/json"
     /\ Headers_get (headers resp) "Content-Type" <> Headers_get (headers up) "Content-Type")
  /\ (let up := reply 201 "text/event-stream" "data: {}" in
      exists r resp,
        serve (runtime (always up)) Events get_providers = (Normal resp, [r])
        /\ net (runtime (always up)) [] r = Responded up
        /\ status up = 201%Z
        /\ status resp = 200%Z)
  /\ (let up := reply 999 "text/plain" "ok" in
      exists r resp,
        serve (runtime (always up)) CatchAll get_providers = (Normal resp, [r])
        /\ net (runtime (always up)) [] r = Responded up
        /\ status up = 999%Z
        /\ status resp = 502%Z).
Proof.
  split; [|split].
  - eexists; eexists. split; [reflexivity|].
    split; [reflexivity|]. split; [reflexivity|]. split; [reflexivity|].
    vm_compute. discriminate.
  - eexists; eexists. repeat (split; [reflexivity|]). reflexivity.
  - eexists; eexists. repeat (split; [reflexivity|]). reflexivity.
Qed.

(** Where the cross-origin header is present: in every answer except the
    ones from the catch-all's [catch] branch, which runs when its upstream
    fetch is rejected or answers with a status the [Response] constructor
    refuses. *)
Lemma cors_header_elsewhere rt e req c trace :
  serve rt e req = (c, trace) ->
  (e = CatchAll ->
   forall r, r ∈ trace ->
     exists up, net rt [] r = Responded up /\ takes_status rt (status up) = true) ->
  exists resp,
    c = Normal resp
    /\ Headers_get (headers resp) "Access-Control-Allow-Origin" = Some "*".
Proof.
  intros Hserve Hcatch; revert Hserve Hcatch.
  destruct e; run_handler; split_cases;
    intros [= <- <-] Hcatch;
    try (eexists; split; [reflexivity |];
         first [ assumption | apply Response_json_cors | reflexivity ]);
    destruct (Hcatch eq_refl _ (proj2 (list_elem_of_singleton _ _) eq_refl))
      as (up & Hup & Hgood);
    try clash.
  same_response up. rewrite Hgood in *. discriminate.
Qed.

(** C4 fails on the catch-all: whenever its upstream fetch is rejected, the
    502 answer carries no [Access-Control-Allow-Origin] header. *)
Theorem catch_all_unreachable_lacks_cors rt req c trace r msg :
  serve rt CatchAll req = (c, trace) ->
  r ∈ trace ->
  net rt [] r = Rejected msg ->
  exists resp,
    c = Normal resp
    /\ status resp = 502%Z
    /\ Headers_get (headers resp) "Access-Control-Allow-Origin" = None.
Proof.
  intros Hserve Hin Hr; revert Hserve.
  run_handler; split_cases; intros [= <- <-]; only_request Hin; try clash.
  eexists; split; [reflexivity | split; [reflexivity |]].
  apply Response_json_bare_no_cors.
Qed.

Lemma catch_all_unreachable_lacks_cors_witness :
  exists resp,
    (serve (runtime unreachable) CatchAll get_providers).1 = Normal resp
    /\ status resp = 502%Z
    /\ Headers_get (headers resp) "Access-Control-Allow-Origin" = None.
Proof.
  destruct (serve (runtime unreachable) CatchAll get_providers) as [c trace] eqn:E.
  assert (Hin : {| url := "http://0.0.0.0:3001/config/providers"; method := "GET";
                   req_headers := Headers_new json_content; req_body := None |} ∈ trace).
  { vm_compute in E. injection E as _ <-. apply list_elem_of_singleton. reflexivity. }
  exact (catch_all_unreachable_lacks_cors (runtime unreachable) get_providers
           c trace _ "Unable to connect" E Hin eq_refl).
Defined.

(** C6: the events handler sends one GET to the upstream [/event]; if that
    fetch is rejected or the response is not OK it answers 502 with a JSON
    error body, otherwise 200 with content type [text/event-stream] and the
    upstream body as it is. *)
Theorem events_stream_or_502 rt req :
  exists r resp,
    serve rt Events req = (Normal resp, [r])
    /\ url r = "http://0.0.0.0:3001/event"
    /\ method r = "GET"
    /\ match net rt [] r with
       | Responded up =>
           if ok up
           then status resp = 200%Z
                /\ Headers_get (headers resp) "Content-Type" = Some "text/event-stream"
                /\ body resp = body up
           else bad_gateway rt "Failed to connect to OpenCode events stream" resp
       | Rejected _ =>
           bad_gateway rt "Failed to connect to OpenCode events stream" resp
       end.
Proof.
  run_handler.
  match goal with |- context [net rt [] ?q] => destruct (net rt [] q) as [m|up] eqn:E end.
  - eexists; eexists. split; [reflexivity|]. split; [reflexivity|]. split; [reflexivity|].
    rewrite E. unfold bad_gateway. auto.
  - destruct (ok up) eqn:Hok; cbv beta iota delta [negb];
      (eexists; eexists; split; [reflexivity|]; split; [reflexivity|];
       split; [reflexivity|]; rewrite E, Hok).
    + auto.
    + unfold bad_gateway. auto.
Qed.

End RelayFacts.

(** ** Code exchange and the authorization URL *)

Module AnthropicAuthFacts.
Import AnthropicAuth Samples.

Lemma split_one {A} (a : A) pre r post :
  [a] = pre ++ r :: post -> pre = [] /\ r = a /\ post = [].
Proof.
  destruct pre as [|x pre]; cbn.
  - intros [= -> <-]. auto.
  - intros [= _ H]. destruct pre; discriminate H.
Qed.

Lemma split_two {A} (a1 a2 : A) pre r post :
  [a1; a2] = pre ++ r :: post ->
  (pre = [] /\ r = a1 /\ post = [a2]) \/ (pre = [a1] /\ r = a2 /\ post = []).
Proof.
  destruct pre as [|x pre]; cbn.
  - intros [= -> <-]. auto.
  - intros [= <- H]. apply split_one in H as (-> & -> & ->). auto.
Qed.

Ltac run_page :=
  cbv beta iota zeta delta
    [exchangeCode storeCredentials completeOAuthFlow
     try_catch bind lift fetch ret throw sent record_request browser_net].

Ltac split_page :=
  repeat match goal with
  | |- context [json_of ?rt ?b] => destruct (json_of rt b) eqn:?
  | |- context [get_prop ?rt ?v ?k] => destruct (get_prop rt v k) eqn:?
  | |- context [net ?rt ?h ?q] => destruct (net rt h q) eqn:?
  | |- context [ok ?r] => destruct (ok r) eqn:?
  | |- context [String.eqb ?a ?b] => destruct (String.eqb a b) eqn:?
  end; cbv beta iota delta [negb].


Lemma requests_two b r1 r2 :
  requests (with_request r2 (with_request r1 b)) = requests b ++ [r1; r2].
Proof. cbn [requests with_request]. by rewrite <- app_assoc. Qed.

Ltac settle_outcome Hf :=
  cbn [requests with_request] in *;
  rewrite ?app_nil_r in Hf;
  repeat match goal with
  | E : net ?rt ?h ?q = _ |- _ => rewrite E in Hf
  end;
  cbn [failed_outcome] in Hf;
  first [ reflexivity | congruence ].

Ltac one_request :=
  eexists; eexists; eexists [_];
  split; [reflexivity |];
  split; [reflexivity |];
  split; [reflexivity |];
  split; [left; reflexivity |];
  let Hs := fresh "Hs" in let Hf := fresh "Hf" in
  intros ? ? ? Hs Hf; apply split_one in Hs as (-> & -> & ->);
  settle_outcome Hf.

Ltac two_requests :=
  eexists; eexists; eexists [_; _];
  split; [reflexivity |];
  split; [reflexivity |];
  split; [apply requests_two |];
  split; [right; eexists; split; [by apply String.eqb_eq | reflexivity] |];
  let Hs := fresh "Hs" in let Hf := fresh "Hf" in
  intros ? ? ? Hs Hf;
  apply split_two in Hs as [(-> & -> & ->) | (-> & -> & ->)];
  settle_outcome Hf.

Lemma exchangeCode_runs rt code verifier method b :
  exists result b' new,
    exchangeCode rt code verifier method b = (Normal result, b')
    /\ sessionStorage b' = sessionStorage b
    /\ requests b' = requests b ++ new
    /\ (new = [token_request rt code verifier]
        \/ exists access_token,
             method = "api-key"
             /\ new = [token_request rt code verifier; api_key_request rt access_token])
    /\ (forall pre r post,
          new = pre ++ r :: post ->
          failed_outcome (net rt (requests b ++ pre) r) ->
          result = just_failed).
Proof.
  run_page.
  destruct (net rt (requests b) (token_request rt code verifier)) as [m|r] eqn:E1;
    [one_request |].
  destruct (ok r) eqn:Hok; cbv beta iota delta [negb]; [| one_request].
  destruct (json_of rt (body r)) as [json|m] eqn:Hj; [| one_request].
  destruct (String.eqb method "claude-pro") eqn:Hm.
  { destruct (get_prop rt json "refresh_token"); [| one_request].
    destruct (get_prop rt json "access_token"); [| one_request].
    destruct (get_prop rt json "expires_in"); one_request. }
  destruct (String.eqb method "api-key") eqn:Hm2; [| one_request].
  destruct (get_prop rt json "access_token") as [access_token|m] eqn:Hg; [| one_request].
  match goal with
  | |- context [net ?rt ?h ?q] => destruct (net rt h q) as [m|r2] eqn:E2
  end; [two_requests |].
  destruct (ok r2) eqn:Hok2; cbv beta iota delta [negb]; [| two_requests].
  destruct (json_of rt (body r2)) as [apiKeyResult|m]; [| two_requests].
  destruct (get_prop rt apiKeyResult "raw_key"); two_requests.
Qed.

(** C5: [exchangeCode] always returns; any fetch it issued that was
    rejected or answered with a non-2xx status makes the result exactly
    [{ type: "failed" }]; and it contacts the token endpoint once, first,
    and the API-key endpoint at most once (only in api-key mode), never an
    endpoint twice. *)
Theorem exchangeCode_failed_without_retry rt code verifier method b :
  exists result b' new,
    exchangeCode rt code verifier method b = (Normal result, b')
    /\ requests b' = requests b ++ new
    /\ head new = Some (token_request rt code verifier)
    /\ NoDup (url <$> new)
    /\ Forall (fun r => url r = "/api/anthropic/oauth/token"
                        \/ (url r = "/api/anthropic/oauth/api-key" /\ method = "api-key"))
              new
    /\ (forall pre r post,
          new = pre ++ r :: post ->
          failed_outcome (net rt (requests b ++ pre) r) ->
          result = just_failed).
Proof.
  destruct (exchangeCode_runs rt code verifier method b)
    as (result & b' & new & Hrun & _ & Hreq & Hnew & Hfail).
  exists result, b', new.
  split; [exact Hrun |]. split; [exact Hreq |].
  split; [by destruct Hnew as [-> | (t & _ & ->)] |].
  split; [| split; [| exact Hfail]].
  - destruct Hnew as [-> | (t & _ & ->)]; cbn.
    + apply NoDup_singleton.
    + apply NoDup_cons. split; [| apply NoDup_singleton].
      intros Hin. apply list_elem_of_singleton in Hin. discriminate Hin.
  - destruct Hnew as [-> | (t & Hm & ->)].
    + apply Forall_singleton. by left.
    + apply Forall_cons. split; [by left |]. apply Forall_singleton. by right.
Qed.

Lemma exchangeCode_failed_without_retry_witness :
  (exchangeCode (runtime (always (reply 400 "application/json" "denied")))
     "code#state" "verifier-1" "api-key" fresh).1 = Normal just_failed.
Proof.
  destruct (exchangeCode_failed_without_retry
              (runtime (always (reply 400 "application/json" "denied")))
              "code#state" "verifier-1" "api-key" fresh)
    as (result & b' & new & Hrun & Hreq & _ & _ & _ & Hfail).
  rewrite Hrun. cbn [fst]. f_equal.
  destruct new as [|r post].
  - vm_compute in Hrun. injection Hrun as _ <-. discriminate Hreq.
  - exact (Hfail [] r post eq_refl eq_refl).
Defined.

Lemma storeCredentials_runs rt result b :
  exists stored b',
    storeCredentials rt result b = (Normal stored, b')
    /\ sessionStorage b' = sessionStorage b.
Proof.
  run_page. destruct (type result); [| by eauto].
  destruct (truthy (key result)).
  - match goal with
    | |- context [net ?rt ?h ?q] => destruct (net rt h q) as [m|r]
    end; [by eauto |].
    destruct (ok r); cbv beta iota delta [negb]; by eauto.
  - destruct (truthy (refresh result) && truthy (access result) && truthy (expires result));
      [| by eauto].
    match goal with
    | |- context [net ?rt ?h ?q] => destruct (net rt h q) as [m|r]
    end; [by eauto |].
    destruct (ok r); cbv beta iota delta [negb]; by eauto.
Qed.

Lemma completeOAuthFlow_runs rt code verifier method b :
  exists done b',
    completeOAuthFlow rt code verifier method b = (Normal done, b')
    /\ sessionStorage b' = sessionStorage b.
Proof.
  destruct (exchangeCode_runs rt code verifier method b)
    as (result & b1 & new & Hrun & Hst & _).
  unfold completeOAuthFlow, bind. rewrite Hrun.
  destruct (type result) eqn:Ht.
  - destruct (storeCredentials_runs rt result b1) as (stored & b2 & Hs & Hst2).
    rewrite Hs. exists stored, b2. split; [reflexivity | congruence].
  - exists false, b1. split; [reflexivity | assumption].
Qed.

Lemma generateRandomString_from_runs rt todo result b :
  exists s b',
    generateRandomString_from rt todo result b = (Normal s, b')
    /\ sessionStorage b' = sessionStorage b
    /\ requests b' = requests b.
Proof.
  revert result b. induction todo as [|todo IH]; intros result b.
  - exists result, b. auto.
  - cbn [generateRandomString_from]. unfold bind, gets, modify.
    destruct (IH (result +:+ charAt chars
                    (Math_random_floor rt (random_draws b) (String.length chars)))
                 (with_draw b)) as (s & b' & Hrun & Hst & Hreq).
    exists s, b'. auto.
Qed.

(** C10: [getAuthorizationUrl] always returns a URL whose
    [code_challenge_method] is [S256]; when [generatePKCE] throws, the
    fallback pair has method [plain] and a challenge equal to the verifier,
    and that verifier is what the URL carries as [code_challenge]. *)
Theorem getAuthorizationUrl_declares_S256 rt method b :
  exists res b',
    getAuthorizationUrl rt method b = (Normal res, b')
    /\ searchParams_get (auth_url res) "code_challenge_method" = Some "S256"
    /\ (forall e, generatePKCE rt = Thrown e ->
          exists pkce,
            safePKCEGenerate rt b = (Normal pkce, b')
            /\ pkce_method pkce = "plain"
            /\ pkce_challenge pkce = pkce_verifier pkce
            /\ auth_verifier res = pkce_verifier pkce
            /\ searchParams_get (auth_url res) "code_challenge" = Some (auth_verifier res)
            /\ searchParams_get (auth_url res) "code_challenge_method"
               <> Some (pkce_method pkce)).
Proof.
  unfold getAuthorizationUrl, bind, safePKCEGenerate, try_catch, lift.
  destruct (generatePKCE rt) as [pkce|m] eqn:Hgen.
  - eexists; eexists. split; [reflexivity|]. split; [reflexivity|].
    intros e He. discriminate He.
  - unfold generatePKCEFallback, generateRandomString, bind.
    destruct (generateRandomString_from_runs rt 128 "" b) as (s & b' & Hrun & _).
    rewrite Hrun. unfold ret.
    eexists; eexists. split; [reflexivity|]. split; [reflexivity|].
    intros e _. eexists. split; [reflexivity|].
    repeat split. cbn. discriminate.
Qed.

Lemma getAuthorizationUrl_declares_S256_witness :
  exists res,
    (getAuthorizationUrl (runtime unreachable) "claude-pro" fresh).1 = Normal res
    /\ searchParams_get (auth_url res) "code_challenge_method" = Some "S256"
    /\ searchParams_get (auth_url res) "code_challenge" = Some (auth_verifier res).
Proof.
  destruct (getAuthorizationUrl_declares_S256 (runtime unreachable) "claude-pro" fresh)
    as (res & b' & Hrun & Hmethod & Hfallback).
  destruct (Hfallback "crypto.subtle is undefined" eq_refl)
    as (pkce & _ & _ & _ & _ & Hchallenge & _).
  exists res. rewrite Hrun. auto.
Defined.

End AnthropicAuthFacts.

(** ** The auth service and the status card *)

Module AuthServiceFacts.
Import AnthropicAuth AuthService Samples AnthropicAuthFacts.

(** C1, as amended: [completeAnthropicAuth] always returns; when it reports
    success the two entries have been removed from [sessionStorage], and
    when it reports failure [sessionStorage] is as it was before the call. *)
Theorem completeAnthropicAuth_cleanup rt authCode b :
  exists res b',
    completeAnthropicAuth rt authCode b = (Normal res, b')
    /\ sessionStorage b' =
         (if ar_success res
          then delete "anthropic_method" (delete "anthropic_verifier" (sessionStorage b))
          else sessionStorage b).
Proof.
  unfold completeAnthropicAuth, try_catch, bind, getItem, gets.
  destruct (sessionStorage b !! "anthropic_verifier") as [verifier|];
    [| by eauto].
  destruct (sessionStorage b !! "anthropic_method") as [method|];
    [| by eauto].
  destruct (negb (truthy_str verifier) || negb (truthy_str method)); [by eauto |].
  destruct (completeOAuthFlow_runs rt authCode verifier method b)
    as (done & b1 & Hflow & Hst).
  rewrite Hflow. destruct done.
  - unfold removeItem, modify, ret. eexists; eexists. split; [reflexivity|].
    cbn [ar_success succeeded sessionStorage with_storage]. by rewrite Hst.
  - eauto.
Qed.

Lemma completeAnthropicAuth_cleanup_witness :
  let rt := runtime (always (reply 200 "application/json" (stringify token_reply))) in
  exists res b',
    completeAnthropicAuth rt "code#state" logging_in = (Normal res, b')
    /\ ar_success res = true
    /\ sessionStorage b' !! "anthropic_verifier" = None
    /\ sessionStorage b' !! "anthropic_method" = None.
Proof.
  intros rt.
  destruct (completeAnthropicAuth_cleanup rt "code#state" logging_in)
    as (res & b' & Hrun & Hst).
  assert (Hres : ar_success res = true).
  { pose proof Hrun as Hc. vm_compute in Hc. by injection Hc as <- _. }
  rewrite Hres in Hst.
  exists res, b'. split; [exact Hrun |]. split; [exact Hres |].
  rewrite Hst. split.
  - rewrite lookup_delete_ne by discriminate. apply lookup_delete_eq.
  - apply lookup_delete_eq.
Defined.

(** C1 as stated fails: the token endpoint answers 400, the call reports
    failure, and both entries are still in [sessionStorage]. *)
Lemma failed_login_keeps_verifier :
  let rt := runtime (always (reply 400 "application/json" "denied")) in
  exists res b',
    completeAnthropicAuth rt "code#state" logging_in = (Normal res, b')
    /\ ar_success res = false
    /\ sessionStorage b' !! "anthropic_verifier" = Some "verifier-1"
    /\ sessionStorage b' !! "anthropic_method" = Some "claude-pro"
    /\ ~ (sessionStorage b' !! "anthropic_verifier" = None
          /\ sessionStorage b' !! "anthropic_method" = None).
Proof.
  eexists; eexists. split; [vm_compute; reflexivity |].
  split; [reflexivity |]. split; [reflexivity |]. split; [reflexivity |].
  intros [H _]. vm_compute in H. discriminate H.
Qed.

(** Cancelling the attempt discards both entries. *)
Lemma handleCancelAuth_discards st b :
  exists st' b',
    AnthropicAuthCard.handleCancelAuth (st, b) = (Normal tt, (st', b'))
    /\ sessionStorage b' !! "anthropic_verifier" = None
    /\ sessionStorage b' !! "anthropic_method" = None.
Proof.
  eexists; eexists. split; [reflexivity |].
  cbn [fst snd sessionStorage with_storage]. split.
  - rewrite lookup_delete_ne by discriminate. apply lookup_delete_eq.
  - apply lookup_delete_eq.
Qed.

Lemma clearAuth_runs rt providerId b :
  exists res b',
    clearAuth rt providerId b = (Normal res, b')
    /\ requests b' = requests b ++ [clear_request providerId].
Proof.
  unfold clearAuth, try_catch, bind, fetch, ret.
  cbv beta iota delta [sent record_request browser_net].
  destruct (net rt (requests b) (clear_request providerId)) as [m|r]; [by eauto |].
  destruct (ok r); cbv beta iota delta [negb]; by eauto.
Qed.

End AuthServiceFacts.

Module AuthStatusFacts.
Import AuthService AuthStatus Samples AuthServiceFacts.

Lemma is_Provider_object rt p k :
  is_Provider p = true -> get_prop rt p k = Normal (own_prop p k).
Proof. destruct p; try discriminate; reflexivity. Qed.

Lemma find_anthropic_runs rt ps :
  Forall (fun p => is_Provider p = true) ps ->
  exists v, find_anthropic rt ps = Normal v.
Proof.
  induction 1 as [|p ps Hp _ IH]; cbn [find_anthropic]; [by eauto |].
  rewrite (is_Provider_object rt p "id" Hp).
  destruct (strict_eq_str (own_prop p "id") "anthropic"); eauto.
Qed.

Lemma is_Provider_flag p :
  is_Provider p = true ->
  truthy (own_prop p "authenticated") = is_authenticated p.
Proof.
  unfold is_Provider, is_authenticated. destruct p; try discriminate.
  destruct (own_prop (JObj fields) "id"); try discriminate.
  destruct (own_prop (JObj fields) "name"); try discriminate.
  destruct (own_prop (JObj fields) "models"); try discriminate.
  destruct (own_prop (JObj fields) "authenticated") as [| |[|]| | | | |];
    try discriminate; reflexivity.
Qed.

Lemma count_truthy_providers rt ps :
  Forall (fun p => is_Provider p = true) ps ->
  count_truthy (fun p => get_prop rt p "authenticated") ps
  = Normal (length (List.filter is_authenticated ps)).
Proof.
  induction 1 as [|p ps Hp _ IH]; cbn [count_truthy List.filter]; [reflexivity |].
  rewrite (is_Provider_object rt p "authenticated" Hp), IH.
  rewrite (is_Provider_flag p Hp).
  destruct (is_authenticated p); reflexivity.
Qed.

Lemma render_row_runs rt p :
  is_Provider p = true -> exists row, render_row rt p = Normal row.
Proof.
  intros Hp. unfold render_row. rewrite (is_Provider_object rt p "name" Hp).
  unfold is_Provider in Hp. destruct p; try discriminate.
  destruct (own_prop (JObj fields) "id"); try discriminate.
  destruct (own_prop (JObj fields) "name"); try discriminate.
  destruct (own_prop (JObj fields) "models"); try discriminate.
  cbn [get_prop]. eauto.
Qed.

Lemma render_rows_runs rt ps :
  Forall (fun p => is_Provider p = true) ps ->
  exists rows, render_rows rt ps = Normal rows /\ length rows = length ps.
Proof.
  induction 1 as [|p ps Hp _ IH]; cbn [render_rows]; [by eauto |].
  destruct (render_row_runs rt p Hp) as [row ->].
  destruct IH as (rows & -> & Hlen).
  exists (row :: rows). split; [reflexivity | cbn; by rewrite Hlen].
Qed.

Lemma fetchProviders_runs rt st b :
  exists st' b',
    fetchProviders rt (st, b) = (Normal tt, (st', b'))
    /\ requests b' = requests b ++ [providers_request].
Proof.
  unfold fetchProviders, try_finally, try_catch, bind, fetch, set_state, modify, throw, lift.
  cbv beta iota delta [sent record_request component_net fst snd].
  destruct (net rt (requests b) providers_request) as [m|r]; [by eauto |].
  destruct (ok r); cbv beta iota delta [negb]; [| by eauto].
  destruct (json_of rt (body r)) as [data|m]; [| by eauto].
  destruct (get_prop rt data "providers") as [data_providers|m]; [| by eauto].
  destruct (optional_find rt data_providers); by eauto.
Qed.

(** C8, as amended: in both revisions of the status card, clearing a
    provider issues exactly one request, the DELETE to
    [/api/opencode/auth/{id}]; the revision that mirrors the server's list
    then fetches [/api/opencode/config/providers] (whatever the DELETE's
    outcome), and the revision with the static list issues nothing more. *)
Theorem handleClearAuth_requests rt providerId :
  (forall st b, exists st' b',
      AuthStatus.handleClearAuth rt providerId (st, b) = (Normal tt, (st', b'))
      /\ requests b' = requests b ++ [clear_request providerId; providers_request])
  /\ (forall st b, exists st' b',
        AuthStatusStatic.handleClearAuth rt providerId (st, b) = (Normal tt, (st', b'))
        /\ requests b' = requests b ++ [clear_request providerId])
  /\ method (clear_request providerId) = "DELETE"
  /\ url (clear_request providerId) = "/api/opencode/auth/" +:+ providerId
  /\ method providers_request = "GET"
  /\ url providers_request = "/api/opencode/config/providers".
Proof.
  split; [| split; [| by repeat split]].
  - intros st b.
    destruct (clearAuth_runs rt providerId b) as (res & b1 & Hclear & Hreq1).
    destruct (fetchProviders_runs rt st b1) as (st' & b' & Hfetch & Hreq2).
    exists st', b'.
    unfold handleClearAuth, try_catch, bind, in_browser. cbn [fst snd].
    rewrite Hclear, Hfetch. split; [reflexivity |].
    rewrite Hreq2, Hreq1, <- app_assoc. reflexivity.
  - intros st b.
    destruct (clearAuth_runs rt providerId b) as (res & b1 & Hclear & Hreq1).
    exists st, b1.
    unfold AuthStatusStatic.handleClearAuth, try_catch, bind, in_browser, ret.
    cbn [fst snd]. rewrite Hclear. split; [reflexivity | exact Hreq1].
Qed.

(** C8 as stated fails on the static revision: the DELETE gets a 200 and
    no request for the provider list follows. *)
Lemma static_card_does_not_refetch :
  let up := reply 200 "application/json" "true" in
  let rt := runtime (always up) in
  let st := {| AuthStatusStatic.showAuthModal := (false, None) |} in
  exists st' b' del,
    AuthStatusStatic.handleClearAuth rt "openai" (st, fresh) = (Normal tt, (st', b'))
    /\ requests b' = [del]
    /\ method del = "DELETE"
    /\ net rt [] del = Responded up /\ ok up = true
    /\ ~ (exists q, q ∈ requests b' /\ url q = "/api/opencode/config/providers").
Proof.
  eexists; eexists; eexists. split; [reflexivity |].
  split; [reflexivity |]. split; [reflexivity |]. split; [reflexivity |].
  split; [reflexivity |].
  intros (q & Hq & Hurl). apply list_elem_of_singleton in Hq. subst q.
  discriminate Hurl.
Qed.

(** C9: after a provider list response (an OK response whose body parses
    to an object with an array [providers] of [Provider]s), the card shows
    as authenticated count the number of providers whose [authenticated] flag
    is [true] and as total the number of providers in the response. *)
Theorem fetchProviders_counts rt st b r data ps :
  net rt (requests b) providers_request = Responded r ->
  ok r = true ->
  json_of rt (body r) = Normal data ->
  get_prop rt data "providers" = Normal (JArr ps) ->
  Forall (fun p => is_Provider p = true) ps ->
  exists st' b' rows,
    fetchProviders rt (st, b) = (Normal tt, (st', b'))
    /\ providers st' = JArr ps
    /\ render rt st' =
         Normal (StatusView (length (List.filter is_authenticated ps)) (length ps)
                   rows (Nat.eqb (length ps) 0))
    /\ length rows = length ps.
Proof.
  intros Hnet Hok Hjson Hprov Hps.
  destruct (find_anthropic_runs rt ps Hps) as [found Hfound].
  destruct (render_rows_runs rt ps Hps) as (rows & Hrows & Hlen).
  unfold fetchProviders, try_finally, try_catch, bind, fetch, set_state, modify, throw, lift.
  cbv beta iota delta [sent record_request component_net fst snd].
  rewrite Hnet, Hok. cbv beta iota delta [negb].
  rewrite Hjson, Hprov. cbn [optional_find]. rewrite Hfound.
  eexists; eexists; exists rows. split; [reflexivity |].
  split; [reflexivity |].
  split; [| exact Hlen].
  unfold render. cbn [providers setProviders setLoading setError js_or truthy loading error].
  rewrite (count_truthy_providers rt ps Hps). cbn [truthy_opt]. by rewrite Hrows.
Qed.

Lemma fetchProviders_counts_witness :
  let rt := runtime (via_relay (always (reply 200 "application/json"
                                          (stringify three_providers)))) in
  exists st' b' rows,
    fetchProviders rt (initial, fresh) = (Normal tt, (st', b'))
    /\ render rt st' = Normal (StatusView 2 3 rows false).
Proof.
  intros rt.
  destruct (fetchProviders_counts rt initial fresh _ three_providers _
              eq_refl eq_refl eq_refl eq_refl)
    as (st' & b' & rows & Hrun & _ & Hrender & _).
  { repeat constructor. }
  exists st', b', rows. split; [exact Hrun | exact Hrender].
Defined.

End AuthStatusFacts.

(** ** The chat widget *)

Module AiChatFacts.
Import AiChat Samples.

(** C7: when the POST to [/api/opencode/session] is answered with a 2xx
    response whose body parses to [{ id: "ses_1" }], [createSession] leaves
    the widget with [sessionId] equal to ["ses_1"] and with a new, open
    [EventSource] on [/api/opencode/events] in its [eventSourceRef]; no
    error message is added to the chat. *)
Theorem createSession_subscribes rt st b r :
  net rt (requests b) (session_request rt) = Responded r ->
  ok r = true ->
  json_of rt (body r) = Normal (JObj [("id", JStr "ses_1")]) ->
  exists st' b',
    createSession rt (st, b) = (Normal tt, (st', b'))
    /\ sessionId st' = JStr "ses_1"
    /\ eventSourceRef st' = Some (length (event_sources b))
    /\ event_sources b' !! length (event_sources b)
       = Some {| es_url := "/api/opencode/events"; es_session := JStr "ses_1";
                 es_closed := false |}
    /\ requests b' = requests b ++ [session_request rt]
    /\ messages st' = messages st
    /\ onError_calls st' = onError_calls st.
Proof.
  intros Hnet Hok Hjson.
  unfold createSession, try_catch, bind, fetch, lift, set_state, modify.
  cbv beta iota delta [sent record_request component_net fst snd].
  rewrite Hnet, Hok. cbv beta iota delta [negb]. rewrite Hjson.
  cbn [get_prop own_prop last_field String.eqb Ascii.eqb Bool.eqb].
  unfold setupEventSource, bind, get_state, gets, in_browser, modify, set_state, ret.
  cbn [fst snd eventSourceRef setSessionId].
  destruct (eventSourceRef st) as [i|];
    (eexists; eexists; split; [reflexivity |];
     cbn [sessionId eventSourceRef set_eventSourceRef setSessionId event_sources
          with_event_sources with_request requests messages onError_calls fst snd];
     repeat split).
  - rewrite length_alter. reflexivity.
  - rewrite lookup_app_r by (rewrite length_alter; lia).
    rewrite length_alter, Nat.sub_diag. reflexivity.
  - rewrite lookup_app_r by lia. rewrite Nat.sub_diag. reflexivity.
Qed.

Lemma createSession_subscribes_witness :
  let rt := runtime (via_relay (always (reply 200 "application/json"
                                          (stringify session_ses_1)))) in
  exists st' b',
    createSession rt (initial, fresh) = (Normal tt, (st', b'))
    /\ sessionId st' = JStr "ses_1"
    /\ event_sources b' !! 0%nat
       = Some {| es_url := "/api/opencode/events"; es_session := JStr "ses_1";
                 es_closed := false |}.
Proof.
  intros rt.
  destruct (createSession_subscribes rt initial fresh _ eq_refl eq_refl eq_refl)
    as (st' & b' & Hrun & Hid & _ & Hes & _).
  exists st', b'. split; [exact Hrun | split; [exact Hid | exact Hes]].
Defined.

End AiChatFacts.

(** * Further properties *)

(** ** The relay: what every handler does *)

Module RelayMoreFacts.
Import Relay RelayKinds Diagnostics Samples RelayFacts.

Lemma prefix_append p rest : String.prefix p (p +:+ rest) = true.
Proof.
  induction p as [|c p IH].
  - by destruct rest.
  - change (String c p +:+ rest) with (String c (p +:+ rest)). cbn [String.prefix].
    destruct (ascii_dec c c); [exact IH | congruence].
Qed.

Lemma drop_chars_append p rest : drop_chars (String.length p) (p +:+ rest) = rest.
Proof.
  induction p as [|c p IH]; [reflexivity |].
  change (String c p +:+ rest) with (String c (p +:+ rest)). exact IH.
Qed.

Lemma replace_first_unfold pat rep s :
  replace_first pat rep s =
  if String.prefix pat s then rep +:+ drop_chars (String.length pat) s
  else match s with
       | EmptyString => EmptyString
       | String c rest => String c (replace_first pat rep rest)
       end.
Proof. destruct s; reflexivity. Qed.

Lemma replace_first_api_prefix rest :
  replace_first "/api/opencode" "" ("/api/opencode" +:+ rest) = rest.
Proof.
  rewrite replace_first_unfold, prefix_append, drop_chars_append. reflexivity.
Qed.

Lemma Headers_new_json_then ct :
  Headers_get (Headers_new (json_content ++ [("Content-Type", ct)])) "Content-Type"
  = Some ct.
Proof.
  unfold Headers_new, json_content. cbn [app fold_left fst snd].
  apply Headers_get_set_same.
Qed.

#[local] Opaque Headers_new Headers_set Headers_get Response_json new_Response
  forward_back pretty.

(** X1: no forwarding handler throws, each sends at most one request
    upstream, and the preflight handlers send none. *)
Theorem handlers_return_one_fetch rt e req :
  exists resp trace,
    serve rt e req = (Normal resp, trace)
    /\ length trace <= 1
    /\ (is_options e = true -> trace = []).
Proof.
  destruct e; run_handler; split_cases;
    eexists; eexists;
    (split; [reflexivity | split; [cbn [length app]; lia |]]);
    intros Hopt; try discriminate Hopt; reflexivity.
Qed.

Lemma handlers_return_one_fetch_witness :
  exists resp,
    serve (runtime (always (reply 200 "text/plain" "ok"))) Session_OPTIONS get_providers
    = (Normal resp, []).
Proof.
  destruct (handlers_return_one_fetch (runtime (always (reply 200 "text/plain" "ok")))
              Session_OPTIONS get_providers) as (resp & trace & Hrun & _ & Hopt).
  exists resp. rewrite Hrun, (Hopt eq_refl). reflexivity.
Defined.

(** X2: a preflight answer is a 200 with a null body that allows any
    origin, the route's methods and the headers [Content-Type] and
    [Authorization]. *)
Theorem preflight_answer rt e req :
  is_options e = true ->
  exists resp,
    serve rt e req = (Normal resp, [])
    /\ status resp = 200%Z
    /\ body resp = None
    /\ Headers_get (headers resp) "Access-Control-Allow-Origin" = Some "*"
    /\ Headers_get (headers resp) "Access-Control-Allow-Methods" = Some (allowed_methods e)
    /\ Headers_get (headers resp) "Access-Control-Allow-Headers"
       = Some "Content-Type, Authorization".
Proof.
  destruct e; intros Hopt; try discriminate Hopt; run_handler; settle_response;
    eexists; (split; [reflexivity | repeat split]).
Qed.

Lemma preflight_answer_witness :
  exists resp,
    serve (runtime unreachable) Auth_OPTIONS put_auth = (Normal resp, [])
    /\ status resp = 200%Z
    /\ Headers_get (headers resp) "Access-Control-Allow-Methods" = Some "PUT, OPTIONS".
Proof.
  destruct (preflight_answer (runtime unreachable) Auth_OPTIONS put_auth eq_refl)
    as (resp & Hrun & Hst & _ & _ & Hm & _).
  exists resp. auto.
Defined.

(** X3: for a path under [/api/opencode], the catch-all sends one request
    to the OpenCode server at the rest of the path plus the query string, with
    the request's method, the request's body text unless the method is GET or
    HEAD (then no body), and the request's content type (or
    [application/json] when it has none). *)
Theorem catch_all_forwards rt req rest :
  in_pathname req = "/api/opencode" +:+ rest ->
  exists resp r,
    serve rt CatchAll req = (Normal resp, [r])
    /\ url r = "http://0.0.0.0:3001" +:+ rest +:+ in_search req
    /\ method r = in_method req
    /\ req_body r = (if carries_body (in_method req)
                     then Some (text_of (in_body req)) else None)
    /\ Headers_get (req_headers r) "Content-Type" = Some (forwarded_content_type req).
Proof.
  intros Hpath. run_handler. rewrite Hpath, replace_first_api_prefix.
  assert (Hct : forall q, url q = "http://0.0.0.0:3001" +:+ rest +:+ in_search req ->
            req_headers q = Headers_new
              (json_content ++
               match Headers_get (in_headers req) "content-type" with
               | Some ct => if truthy_str ct then [("Content-Type", ct)] else []
               | None => []
               end) ->
            Headers_get (req_headers q) "Content-Type" = Some (forwarded_content_type req)).
  { intros q _ ->. unfold forwarded_content_type.
    destruct (Headers_get (in_headers req) "content-type") as [ct|]; [| reflexivity].
    destruct (truthy_str ct); [apply Headers_new_json_then | reflexivity]. }
  split_cases; eexists; eexists;
    (split; [reflexivity |]; split; [reflexivity |]; split; [reflexivity |];
     split; [reflexivity |]; apply Hct; reflexivity).
Qed.

Lemma catch_all_forwards_witness :
  exists resp r,
    serve (runtime unreachable) CatchAll get_providers = (Normal resp, [r])
    /\ url r = "http://0.0.0.0:3001/config/providers"
    /\ req_body r = None.
Proof.
  destruct (catch_all_forwards (runtime unreachable) get_providers "/config/providers"
              eq_refl) as (resp & r & Hrun & Hurl & _ & Hbody & _).
  exists resp, r. auto.
Defined.

(** X4: when the body of a request to one of the two Anthropic OAuth
    routes is not valid JSON, the handler answers 500 with its error object
    and contacts nobody; the API-key route does the same for a body that is
    the JSON [null]. *)
Theorem oauth_bad_body_no_fetch rt e req :
  is_anthropic e = true ->
  (exists msg, json_of rt (in_body req) = Thrown msg)
  \/ (e = OAuthApiKey_POST /\ json_of rt (in_body req) = Normal JNull) ->
  exists resp,
    serve rt e req = (Normal resp, [])
    /\ status resp = 500%Z
    /\ body resp = Some (JSON_stringify rt (error_body (unreachable_message e)))
    /\ Headers_get (headers resp) "Access-Control-Allow-Origin" = Some "*".
Proof.
  intros Hkind Hbad.
  destruct e; try discriminate Hkind; run_handler;
    destruct Hbad as [[msg ->] | [He ->]]; try discriminate He;
    eexists; (split; [reflexivity | repeat split]).
Qed.

Lemma oauth_bad_body_no_fetch_witness :
  exists resp,
    serve (runtime (always (reply 200 "application/json" "ok"))) OAuthToken_POST get_providers
    = (Normal resp, [])
    /\ status resp = 500%Z.
Proof.
  destruct (oauth_bad_body_no_fetch (runtime (always (reply 200 "application/json" "ok")))
              OAuthToken_POST get_providers eq_refl
              (or_introl (ex_intro _ "SyntaxError: JSON Parse error" eq_refl)))
    as (resp & Hrun & Hst & _).
  exists resp. auto.
Defined.

(** X5: the token route sends the parsed request body, serialized again,
    to Anthropic's token endpoint; the API-key route sends no body and the
    request's [access_token] as [Authorization: Bearer ...] to the
    create-key endpoint. *)
Theorem oauth_routes_forward rt req parsed :
  json_of rt (in_body req) = Normal parsed ->
  (exists resp r,
     serve rt OAuthToken_POST req = (Normal resp, [r])
     /\ url r = "https://console.anthropic.com/v1/oauth/token"
     /\ method r = "POST"
     /\ req_body r = Some (JSON_stringify rt parsed))
  /\ (forall token,
        get_prop rt parsed "access_token" = Normal (JStr token) ->
        exists resp r,
          serve rt OAuthApiKey_POST req = (Normal resp, [r])
          /\ url r = "https://api.anthropic.com/api/oauth/claude_cli/create_api_key"
          /\ method r = "POST"
          /\ req_body r = None
          /\ Headers_get (req_headers r) "Authorization" = Some ("Bearer " +:+ token)).
Proof.
  intros Hjson. split.
  - run_handler. rewrite Hjson. split_cases;
      eexists; eexists; repeat split.
  - intros token Htoken. run_handler. rewrite Hjson, Htoken.
    assert (Hauth : Headers_get (Headers_new
                      (json_content ++ [("Authorization", "Bearer " +:+ js_String (JStr token))]))
                      "Authorization" = Some ("Bearer " +:+ token)).
    { Transparent Headers_new.
      unfold Headers_new, json_content. cbn [app fold_left fst snd js_String].
      apply Headers_get_set_same. }
    split_cases; eexists; eexists;
      (split; [reflexivity |]; split; [reflexivity |]; split; [reflexivity |];
       split; [reflexivity |]; exact Hauth).
Qed.

Lemma oauth_routes_forward_witness :
  exists resp r,
    serve (runtime unreachable) OAuthApiKey_POST post_token = (Normal resp, [r])
    /\ Headers_get (req_headers r) "Authorization" = Some "Bearer at".
Proof.
  destruct (oauth_routes_forward (runtime unreachable) post_token token_reply eq_refl)
    as [_ Hkey].
  destruct (Hkey "at" eq_refl) as (resp & r & Hrun & _ & _ & _ & Hauth).
  exists resp, r. auto.
Defined.

#[local] Opaque Headers_new.

(** X6: whenever the upstream responds with a status the [Response]
    constructor takes, every handler but the events handler answers with
    exactly the text of the upstream body; for any other upstream status it
    answers with its own JSON error object. *)
Theorem relay_body_unchanged rt e req c trace r up :
  serve rt e req = (c, trace) ->
  r ∈ trace ->
  net rt [] r = Responded up ->
  e <> Events ->
  exists resp,
    c = Normal resp
    /\ body resp = Some (if takes_status rt (status up)
                         then text_of (body up)
                         else JSON_stringify rt (error_body (unreachable_message e))).
Proof.
  intros Hserve Hin Hr He; revert Hserve.
  destruct e; try congruence; run_handler; split_cases;
    intros [= <- <-]; only_request Hin;
    try (match goal with
         | H1 : net ?rt ?h ?a = Rejected ?m, H2 : net ?rt ?h ?b = Responded ?x |- _ =>
             exfalso; pose proof (eq_trans (eq_sym H1) H2) as Hclash; discriminate Hclash
         end);
    same_response up;
    (eexists; split; [reflexivity |]);
    match goal with H : takes_status _ _ = _ |- _ => rewrite H end;
    first [ assumption | reflexivity ].
Qed.

Lemma relay_body_unchanged_witness :
  exists resp,
    (serve (runtime (always (reply 404 "text/plain" "gone"))) Auth_PUT put_auth).1
    = Normal resp
    /\ body resp = Some "gone".
Proof.
  destruct (serve (runtime (always (reply 404 "text/plain" "gone"))) Auth_PUT put_auth)
    as [c trace] eqn:E.
  assert (Hin : {| url := "http://0.0.0.0:3001/auth/openai"; method := "PUT";
                   req_headers := Headers_new json_content;
                   req_body := in_body put_auth |} ∈ trace).
  { vm_compute in E. injection E as _ <-. apply list_elem_of_singleton. reflexivity. }
  assert (He : Auth_PUT <> Events) by discriminate.
  destruct (relay_body_unchanged (runtime (always (reply 404 "text/plain" "gone")))
              Auth_PUT put_auth c trace _ (reply 404 "text/plain" "gone") E Hin eq_refl He)
    as (resp & Hc & Hbody).
  exact (ex_intro _ resp (conj Hc Hbody)).
Defined.

(** X7: the connectivity test sends one GET to the OpenCode server's
    [/config]; it answers 200 when that responds OK and 502 otherwise, naming
    the upstream status when there was a response and the error's message when
    the fetch was rejected. *)
Theorem test_opencode_reports rt req :
  exists resp,
    test_opencode rt req [] = (Normal resp, [config_request])
    /\ match net rt [] config_request with
       | Responded up =>
           if ok up
           then status resp = 200%Z
                /\ body resp = Some (JSON_stringify rt
                     (JObj [("status", JStr "connected");
                            ("message", JStr "OpenCode server is accessible");
                            ("port", JNum 3001)]))
           else status resp = 502%Z
                /\ body resp = Some (JSON_stringify rt
                     (JObj [("status", JStr "error");
                            ("message", JStr ("OpenCode server responded with "
                                              +:+ pretty (status up)));
                            ("port", JNum 3001)]))
       | Rejected msg =>
           status resp = 502%Z
           /\ body resp = Some (JSON_stringify rt
                (JObj [("status", JStr "unreachable");
                       ("message", JStr "Cannot connect to OpenCode server");
                       ("error", JStr msg);
                       ("port", JNum 3001)]))
       end.
Proof.
  unfold test_opencode, try_catch, bind, fetch, ret.
  cbv beta iota delta [sent record_request relay_net].
  destruct (net rt [] config_request) as [msg|up].
  - eexists. split; [reflexivity | split; reflexivity].
  - destruct (ok up); eexists; (split; [reflexivity | split; reflexivity]).
Qed.

End RelayMoreFacts.

(** ** PKCE, the authorization URL and the code exchange *)

Module AnthropicAuthMoreFacts.
Import AnthropicAuth AuthNotions Samples MoreSamples AnthropicAuthFacts.

Lemma length_append a b : String.length (a +:+ b) = String.length a + String.length b.
Proof.
  induction a as [|c a IH]; [reflexivity |].
  change (String c a +:+ b) with (String c (a +:+ b)). cbn. by rewrite IH.
Qed.

Lemma chars_of_append a b :
  list_ascii_of_string (a +:+ b) = list_ascii_of_string a ++ list_ascii_of_string b.
Proof.
  induction a as [|c a IH]; [reflexivity |].
  change (String c a +:+ b) with (String c (a +:+ b)). cbn. by rewrite IH.
Qed.

Lemma get_in_chars s i c : String.get i s = Some c -> In c (list_ascii_of_string s).
Proof.
  revert i. induction s as [|d s IH]; intros i; [discriminate |].
  destruct i as [|i]; cbn.
  - intros [= ->]. by left.
  - intros Hget. right. by eapply IH.
Qed.

Lemma get_in_range s i : i < String.length s -> exists c, String.get i s = Some c.
Proof.
  revert i. induction s as [|d s IH]; intros i; cbn; [lia |].
  destruct i as [|i]; [by eauto |]. intros Hi. apply IH. lia.
Qed.

Lemma generateRandomString_from_length rt todo result b :
  (forall k, random_draws b <= k < random_draws b + todo ->
     Math_random_floor rt k (String.length chars) < String.length chars) ->
  drawn_from chars result ->
  exists s b',
    generateRandomString_from rt todo result b = (Normal s, b')
    /\ String.length s = String.length result + todo
    /\ drawn_from chars s
    /\ random_draws b' = random_draws b + todo
    /\ sessionStorage b' = sessionStorage b
    /\ requests b' = requests b.
Proof.
  revert result b. induction todo as [|todo IH]; intros result b Hrange Hres.
  - exists result, b. repeat split; [cbn; lia | exact Hres | lia].
  - cbn [generateRandomString_from]. unfold bind, gets, modify.
    destruct (get_in_range chars (Math_random_floor rt (random_draws b) (String.length chars)))
      as [c Hc]; [apply Hrange; lia |].
    destruct (IH (result +:+ charAt chars
                    (Math_random_floor rt (random_draws b) (String.length chars)))
                 (with_draw b)) as (s & b' & Hrun & Hlen & Hfrom & Hdraws & Hst & Hreq).
    + intros k Hk. apply Hrange. cbn [random_draws with_draw] in Hk. lia.
    + unfold drawn_from, charAt. rewrite Hc, chars_of_append.
      apply Forall_app. split; [exact Hres |].
      apply Forall_singleton. by eapply get_in_chars.
    + exists s, b'. split; [exact Hrun |].
      rewrite Hlen, length_append. unfold charAt at 1. rewrite Hc.
      cbn [random_draws with_draw] in Hdraws. cbn [String.length].
      repeat split; [lia | exact Hfrom | lia | exact Hst | exact Hreq].
Qed.

(** X8: when every draw of [Math.floor(Math.random() * chars.length)] is
    an index into [chars], [generateRandomString(n)] returns a string of
    exactly [n] characters, all taken from [chars], and uses [n] draws. *)
Theorem generateRandomString_length rt n b :
  (forall k, random_draws b <= k < random_draws b + n ->
     Math_random_floor rt k (String.length chars) < String.length chars) ->
  exists s b',
    generateRandomString rt n b = (Normal s, b')
    /\ String.length s = n
    /\ drawn_from chars s
    /\ random_draws b' = random_draws b + n.
Proof.
  intros Hrange.
  destruct (generateRandomString_from_length rt n "" b Hrange)
    as (s & b' & Hrun & Hlen & Hfrom & Hdraws & _); [constructor |].
  exists s, b'. auto.
Qed.

Lemma generateRandomString_length_witness :
  exists s b',
    generateRandomString (runtime unreachable) 128 fresh = (Normal s, b')
    /\ String.length s = 128
    /\ drawn_from chars s.
Proof.
  destruct (generateRandomString_length (runtime unreachable) 128 fresh)
    as (s & b' & Hrun & Hlen & Hfrom & _).
  - intros k _. apply Nat.mod_upper_bound. discriminate.
  - exists s, b'. auto.
Defined.

Lemma safePKCEGenerate_runs rt b :
  exists pkce b',
    safePKCEGenerate rt b = (Normal pkce, b')
    /\ sessionStorage b' = sessionStorage b
    /\ requests b' = requests b.
Proof.
  unfold safePKCEGenerate, try_catch, lift.
  destruct (generatePKCE rt) as [pkce|m]; [by eauto |].
  unfold generatePKCEFallback, generateRandomString, bind.
  destruct (generateRandomString_from_runs rt 128 "" b) as (s & b' & -> & Hst & Hreq).
  eauto.
Qed.

(** X9: [getAuthorizationUrl] touches neither [sessionStorage] nor the
    network.  The URL it returns is on [claude.ai] for the method
    ["claude-pro"] and on [console.anthropic.com] for any other method; its
    [state] parameter is the verifier it returns, and it carries the fixed
    client id, response type, redirect URI and scope. *)
Theorem getAuthorizationUrl_shape rt method b :
  exists res b',
    getAuthorizationUrl rt method b = (Normal res, b')
    /\ sessionStorage b' = sessionStorage b
    /\ requests b' = requests b
    /\ href_base (auth_url res) =
         (if String.eqb method "claude-pro"
          then "https://claude.ai/oauth/authorize"
          else "https://console.anthropic.com/oauth/authorize")
    /\ searchParams_get (auth_url res) "state" = Some (auth_verifier res)
    /\ searchParams_get (auth_url res) "client_id" = Some CLIENT_ID
    /\ searchParams_get (auth_url res) "response_type" = Some "code"
    /\ searchParams_get (auth_url res) "redirect_uri"
       = Some "https://console.anthropic.com/oauth/code/callback"
    /\ searchParams_get (auth_url res) "scope"
       = Some "org:create_api_key user:profile user:inference"
    /\ length (searchParams (auth_url res)) = 8.
Proof.
  destruct (safePKCEGenerate_runs rt b) as (pkce & b' & Hrun & Hst & Hreq).
  unfold getAuthorizationUrl, bind. rewrite Hrun.
  eexists; eexists. split; [reflexivity |].
  split; [exact Hst |]. split; [exact Hreq |].
  split; [by destruct (String.eqb method "claude-pro") |].
  repeat split.
Qed.

Lemma split_on_hash_free s : hash_free s -> split_on "#" s = [s].
Proof.
  unfold hash_free. induction s as [|c s IH]; cbn; [reflexivity |].
  intros H. apply Forall_cons in H as [Hc Hs].
  destruct (Ascii.eqb c "#") eqn:E; [apply Ascii.eqb_eq in E; contradiction |].
  by rewrite (IH Hs).
Qed.

Lemma split_on_hash_app c s :
  hash_free c -> split_on "#" (c +:+ "#" +:+ s) = c :: split_on "#" s.
Proof.
  unfold hash_free. induction c as [|d c IH]; [reflexivity |].
  change (String d c +:+ "#" +:+ s) with (String d (c +:+ "#" +:+ s)). cbn.
  intros H. apply Forall_cons in H as [Hd Hc].
  destruct (Ascii.eqb d "#") eqn:E; [apply Ascii.eqb_eq in E; contradiction |].
  by rewrite (IH Hc).
Qed.

(** X10: the token request carries what precedes the first ['#'] of the
    pasted code as [code] and what lies between the first and the second ['#']
    as [state]; without a ['#'] the [state] is [undefined], and whatever
    follows a second ['#'] is ignored. *)
Theorem token_request_splits rt code state verifier :
  hash_free code ->
  hash_free state ->
  req_body (token_request rt code verifier)
  = Some (JSON_stringify rt (token_body (JStr code) JUndefined verifier))
  /\ req_body (token_request rt (code +:+ "#" +:+ state) verifier)
     = Some (JSON_stringify rt (token_body (JStr code) (JStr state) verifier))
  /\ forall ignored,
       req_body (token_request rt (code +:+ "#" +:+ state +:+ "#" +:+ ignored) verifier)
       = Some (JSON_stringify rt (token_body (JStr code) (JStr state) verifier)).
Proof.
  intros Hcode Hstate. unfold token_request, token_body. cbn [req_body].
  split; [| split; [| intros ignored]].
  - by rewrite (split_on_hash_free code Hcode).
  - by rewrite (split_on_hash_app code state Hcode), (split_on_hash_free state Hstate).
  - by rewrite (split_on_hash_app code _ Hcode), (split_on_hash_app state ignored Hstate).
Qed.

Lemma token_request_splits_witness :
  req_body (token_request (runtime unreachable) "abc#xyz" "v")
  = Some (stringify (token_body (JStr "abc") (JStr "xyz") "v")).
Proof.
  assert (Ha : hash_free "abc") by (repeat constructor; discriminate).
  assert (Hx : hash_free "xyz") by (repeat constructor; discriminate).
  exact (proj1 (proj2 (token_request_splits (runtime unreachable) "abc" "xyz" "v" Ha Hx))).
Defined.

(** X11: [storeCredentials] sends nothing and returns [false] for a failed
    result and for a result with neither a truthy key nor three truthy token
    fields. *)
Theorem storeCredentials_nothing_to_store rt result b :
  type result = failed \/ storable result = false ->
  storeCredentials rt result b = (Normal false, b).
Proof.
  unfold storable. intros Hwhy. run_page.
  destruct (type result); [| reflexivity].
  destruct Hwhy as [Hf | Hs]; [discriminate Hf |].
  apply orb_false_iff in Hs as [-> ->]. reflexivity.
Qed.

Lemma storeCredentials_nothing_to_store_witness :
  storeCredentials (runtime (always (reply 200 "application/json" "ok")))
    {| type := success; refresh := JStr "r"; access := JStr "a";
       expires := JNaN; key := JUndefined |} fresh
  = (Normal false, fresh).
Proof.
  apply storeCredentials_nothing_to_store. right. reflexivity.
Defined.

Lemma storeCredentials_puts rt result b :
  type result = success ->
  storable result = true ->
  storeCredentials rt result b
  = (Normal match net rt (requests b) (credentials_request rt (credentials_of result)) with
            | Responded r => ok r
            | Rejected _ => false
            end,
     with_request (credentials_request rt (credentials_of result)) b).
Proof.
  unfold storable, credentials_of. intros Ht Hs.
  run_page. rewrite Ht.
  destruct (truthy (key result)).
  - destruct (net rt (requests b) _) as [m|r]; [reflexivity |].
    by destruct (ok r).
  - cbn [orb] in Hs. rewrite Hs.
    destruct (net rt (requests b) _) as [m|r]; [reflexivity |].
    by destruct (ok r).
Qed.

(** X12: for a successful result with something to store,
    [storeCredentials] sends exactly one PUT to
    [/api/opencode/auth/anthropic], with the API key if there is one and the
    token triple otherwise, and returns whether that request got a 2xx. *)
Theorem storeCredentials_sends rt result b :
  type result = success ->
  storable result = true ->
  storeCredentials rt result b
  = (Normal match net rt (requests b) (credentials_request rt (credentials_of result)) with
            | Responded r => ok r
            | Rejected _ => false
            end,
     with_request (credentials_request rt (credentials_of result)) b)
  /\ url (credentials_request rt (credentials_of result)) = "/api/opencode/auth/anthropic"
  /\ method (credentials_request rt (credentials_of result)) = "PUT".
Proof.
  intros Ht Hs. split; [by apply storeCredentials_puts | by split].
Qed.

Lemma storeCredentials_sends_witness :
  exists b',
    storeCredentials (runtime (always (reply 200 "application/json" "ok")))
      {| type := success; refresh := JUndefined; access := JUndefined;
         expires := JUndefined; key := JStr "sk-ant" |} fresh
    = (Normal true, b')
    /\ (req_body <$> requests b')
       = [Some (stringify (JObj [("type", JStr "api"); ("key", JStr "sk-ant")]))].
Proof.
  eexists. split.
  - exact (proj1 (storeCredentials_sends
                    (runtime (always (reply 200 "application/json" "ok")))
                    {| type := success; refresh := JUndefined; access := JUndefined;
                       expires := JUndefined; key := JStr "sk-ant" |} fresh
                    eq_refl eq_refl)).
  - reflexivity.
Defined.

Ltac settle_stop Hf :=
  cbn [requests with_request] in *;
  rewrite ?app_nil_r in Hf;
  repeat match goal with
  | E : net ?rt ?h ?q = _ |- _ => rewrite E in Hf
  end;
  cbn [failed_outcome] in Hf;
  first [ split; reflexivity | congruence ].

Ltac stop_after_one :=
  eexists; eexists; eexists [_];
  split; [reflexivity |];
  split; [reflexivity |];
  split; [reflexivity |];
  split; [discriminate |];
  let Hs := fresh "Hs" in let Hf := fresh "Hf" in
  intros ? ? ? Hs Hf; apply split_one in Hs as (-> & -> & ->);
  settle_stop Hf.

Ltac stop_after_two :=
  eexists; eexists; eexists [_; _];
  split; [reflexivity |];
  split; [reflexivity |];
  split; [apply requests_two |];
  split; [discriminate |];
  let Hs := fresh "Hs" in let Hf := fresh "Hf" in
  intros ? ? ? Hs Hf;
  apply split_two in Hs as [(-> & -> & ->) | (-> & -> & ->)];
  settle_stop Hf.

(** [exchangeCode] stops at the first fetch that fails. *)
Lemma exchangeCode_stops rt code verifier method b :
  exists result b' new,
    exchangeCode rt code verifier method b = (Normal result, b')
    /\ sessionStorage b' = sessionStorage b
    /\ requests b' = requests b ++ new
    /\ new <> []
    /\ (forall pre r post,
          new = pre ++ r :: post ->
          failed_outcome (net rt (requests b ++ pre) r) ->
          result = just_failed /\ post = []).
Proof.
  run_page.
  destruct (net rt (requests b) (token_request rt code verifier)) as [m|r] eqn:E1;
    [stop_after_one |].
  destruct (ok r) eqn:Hok; cbv beta iota delta [negb]; [| stop_after_one].
  destruct (json_of rt (body r)) as [json|m] eqn:Hj; [| stop_after_one].
  destruct (String.eqb method "claude-pro") eqn:Hm.
  { destruct (get_prop rt json "refresh_token"); [| stop_after_one].
    destruct (get_prop rt json "access_token"); [| stop_after_one].
    destruct (get_prop rt json "expires_in"); stop_after_one. }
  destruct (String.eqb method "api-key") eqn:Hm2; [| stop_after_one].
  destruct (get_prop rt json "access_token") as [access_token|m] eqn:Hg; [| stop_after_one].
  match goal with
  | |- context [net ?rt ?h ?q] => destruct (net rt h q) as [m|r2] eqn:E2
  end; [stop_after_two |].
  destruct (ok r2) eqn:Hok2; cbv beta iota delta [negb]; [| stop_after_two].
  destruct (json_of rt (body r2)) as [apiKeyResult|m]; [| stop_after_two].
  destruct (get_prop rt apiKeyResult "raw_key"); stop_after_two.
Qed.

Lemma split_snoc {A} (l : list A) a pre r post :
  l ++ [a] = pre ++ r :: post ->
  (exists post', l = pre ++ r :: post' /\ post = post' ++ [a])
  \/ (pre = l /\ r = a /\ post = []).
Proof.
  revert pre. induction l as [|x l IH]; intros pre; cbn.
  - intros H. apply split_one in H as (-> & -> & ->). by right.
  - destruct pre as [|y pre]; cbn.
    + intros [= <- <-]. left. by exists l.
    + intros [= <- H]. destruct (IH pre H) as [(post' & -> & ->) | (-> & -> & ->)].
      * left. by exists post'.
      * by right.
Qed.

(** X13: [completeOAuthFlow] always returns.  It reports [true] only when
    its last request was the PUT of the credentials and that got a 2xx; and
    after the first fetch that is rejected or answered with a non-2xx status
    it sends nothing more and reports [false] (so a failed exchange never
    reaches the credentials endpoint). *)
Theorem completeOAuthFlow_stops_at_failure rt code verifier method b :
  exists done b' new,
    completeOAuthFlow rt code verifier method b = (Normal done, b')
    /\ requests b' = requests b ++ new
    /\ (done = true ->
          exists pre body r,
            new = pre ++ [credentials_request rt body]
            /\ pre <> []
            /\ net rt (requests b ++ pre) (credentials_request rt body) = Responded r
            /\ ok r = true)
    /\ (forall pre r post,
          new = pre ++ r :: post ->
          failed_outcome (net rt (requests b ++ pre) r) ->
          done = false /\ post = []).
Proof.
  destruct (exchangeCode_stops rt code verifier method b)
    as (result & b1 & new1 & Hrun & _ & Hreq1 & Hne & Hstop).
  unfold completeOAuthFlow, bind. rewrite Hrun.
  destruct (type result) eqn:Ht.
  - destruct (storable result) eqn:Hs.
    + rewrite (storeCredentials_puts rt result b1 Ht Hs).
      eexists; eexists; exists (new1 ++ [credentials_request rt (credentials_of result)]).
      split; [reflexivity |].
      split; [cbn [requests with_request]; by rewrite Hreq1, <- app_assoc |].
      split.
      * intros Hdone. exists new1, (credentials_of result).
        rewrite Hreq1 in Hdone.
        destruct (net rt (requests b ++ new1) _) as [m|r] eqn:E; [discriminate Hdone |].
        exists r. auto.
      * intros pre r post Hsplit Hf.
        apply split_snoc in Hsplit as [(post' & -> & ->) | (-> & -> & ->)].
        -- destruct (Hstop pre r post' eq_refl Hf) as [-> _]. discriminate Ht.
        -- rewrite Hreq1. split; [| reflexivity].
           destruct (net rt (requests b ++ new1) _) as [m|r']; [reflexivity | exact Hf].
    + assert (Hnone : storeCredentials rt result b1 = (Normal false, b1)).
      { unfold storable in Hs. run_page. rewrite Ht.
        apply orb_false_iff in Hs as [-> ->]. reflexivity. }
      rewrite Hnone. exists false, b1, new1. split; [reflexivity |]. split; [exact Hreq1 |].
      split; [discriminate |].
      intros pre r post Hsplit Hf.
      destruct (Hstop pre r post Hsplit Hf) as [-> _]. discriminate Ht.
  - exists false, b1, new1. split; [reflexivity |]. split; [exact Hreq1 |].
    split; [discriminate |].
    intros pre r post Hsplit Hf. split; [reflexivity |].
    by destruct (Hstop pre r post Hsplit Hf).
Qed.

Lemma completeOAuthFlow_stops_at_failure_witness :
  (completeOAuthFlow (runtime (always (reply 403 "application/json" "no")))
     "code#state" "verifier-1" "claude-pro" fresh).1 = Normal false.
Proof.
  destruct (completeOAuthFlow_stops_at_failure
              (runtime (always (reply 403 "application/json" "no")))
              "code#state" "verifier-1" "claude-pro" fresh)
    as (done & b' & new & Hrun & Hreq & _ & Hstop).
  rewrite Hrun. cbn [fst]. f_equal.
  destruct new as [|r post].
  - vm_compute in Hrun. injection Hrun as _ <-. discriminate Hreq.
  - exact (proj1 (Hstop [] r post eq_refl eq_refl)).
Defined.

(** X14: in ["claude-pro"] mode, when the token endpoint answers 2xx with
    a JSON value other than [null], [exchangeCode] sends nothing else and
    returns a success whose [refresh], [access] are the response's
    [refresh_token], [access_token] (possibly [undefined]) and whose [expires]
    is [Date.now() + expires_in * 1000]: the exact sum when [expires_in] is an
    integer and the clock, the product and the sum are all within
    [-2^53, 2^53], where doubles do not round. *)
Theorem exchangeCode_claude_pro rt code verifier b r json :
  net rt (requests b) (token_request rt code verifier) = Responded r ->
  ok r = true ->
  json_of rt (body r) = Normal json ->
  json <> JNull -> json <> JUndefined ->
  exchangeCode rt code verifier "claude-pro" b
  = (Normal {| type := success;
               refresh := own_prop json "refresh_token";
               access := own_prop json "access_token";
               expires := js_plus_numbers rt (JNum (Date_now rt))
                            (js_times rt (own_prop json "expires_in") (JNum 1000));
               key := JUndefined |},
     with_request (token_request rt code verifier) b)
  /\ (forall n,
        own_prop json "expires_in" = JNum n ->
        exact_integer (Date_now rt) = true ->
        exact_integer (n * 1000) = true ->
        exact_integer (Date_now rt + n * 1000) = true ->
        js_plus_numbers rt (JNum (Date_now rt))
          (js_times rt (own_prop json "expires_in") (JNum 1000))
        = JNum (Date_now rt + n * 1000)).
Proof.
  intros Hnet Hok Hjson Hnull Hundef. split.
  - run_page. rewrite Hnet, Hok. cbv beta iota delta [negb]. rewrite Hjson.
    cbn [String.eqb Ascii.eqb Bool.eqb].
    destruct json; try contradiction; reflexivity.
  - intros n -> Hnow Hprod Hsum.
    assert (Hn : exact_integer n = true).
    { unfold exact_integer in *.
      apply andb_true_intro. apply andb_prop in Hprod as [Hlo Hhi].
      apply Z.leb_le in Hlo, Hhi. split; apply Z.leb_le; lia. }
    unfold js_plus_numbers, js_times, ToNumber.
    rewrite Hn, Hprod. cbn [andb].
    change (exact_integer 1000) with true. cbn [andb].
    rewrite Hnow, Hprod, Hsum. reflexivity.
Qed.

Lemma exchangeCode_claude_pro_witness :
  exchangeCode (runtime (always (reply 200 "application/json" (stringify token_reply))))
    "code#state" "verifier-1" "claude-pro" fresh
  = (Normal {| type := success; refresh := JStr "rt"; access := JStr "at";
               expires := JNum 1700003600000; key := JUndefined |},
     with_request (token_request
                     (runtime (always (reply 200 "application/json" (stringify token_reply))))
                     "code#state" "verifier-1") fresh).
Proof.
  assert (Hnull : token_reply <> JNull) by discriminate.
  assert (Hundef : token_reply <> JUndefined) by discriminate.
  destruct (exchangeCode_claude_pro
              (runtime (always (reply 200 "application/json" (stringify token_reply))))
              "code#state" "verifier-1" fresh _ token_reply eq_refl eq_refl eq_refl
              Hnull Hundef) as [Hrun Hexpires].
  rewrite Hrun, (Hexpires 3600%Z eq_refl eq_refl eq_refl eq_refl). reflexivity.
Defined.

(** X15: in ["api-key"] mode, when both endpoints answer 2xx with JSON
    values other than [null], [exchangeCode] sends the token request and then
    the API-key request carrying the token response's [access_token], and
    returns a success whose only field is [key], the second response's
    [raw_key]. *)
Theorem exchangeCode_api_key rt code verifier b r json r2 json2 :
  net rt (requests b) (token_request rt code verifier) = Responded r ->
  ok r = true ->
  json_of rt (body r) = Normal json ->
  json <> JNull -> json <> JUndefined ->
  net rt (requests b ++ [token_request rt code verifier])
    (api_key_request rt (own_prop json "access_token")) = Responded r2 ->
  ok r2 = true ->
  json_of rt (body r2) = Normal json2 ->
  json2 <> JNull -> json2 <> JUndefined ->
  exists b',
    exchangeCode rt code verifier "api-key" b
    = (Normal {| type := success; refresh := JUndefined; access := JUndefined;
                 expires := JUndefined; key := own_prop json2 "raw_key" |}, b')
    /\ requests b' = requests b ++ [token_request rt code verifier;
                                    api_key_request rt (own_prop json "access_token")].
Proof.
  intros Hnet Hok Hjson Hnull Hundef Hnet2 Hok2 Hjson2 Hnull2 Hundef2.
  run_page. rewrite Hnet, Hok. cbv beta iota delta [negb]. rewrite Hjson.
  cbn [String.eqb Ascii.eqb Bool.eqb].
  assert (Hget : get_prop rt json "access_token" = Normal (own_prop json "access_token"))
    by (destruct json; try contradiction; reflexivity).
  rewrite Hget. cbn [requests with_request]. rewrite Hnet2, Hok2.
  cbv beta iota delta [negb]. rewrite Hjson2.
  assert (Hget2 : get_prop rt json2 "raw_key" = Normal (own_prop json2 "raw_key"))
    by (destruct json2; try contradiction; reflexivity).
  rewrite Hget2. eexists. split; [reflexivity |].
  cbn [requests with_request]. by rewrite <- app_assoc.
Qed.

Lemma exchangeCode_api_key_witness :
  let rt := runtime_knowing [token_reply; raw_key_reply]
              (answer_at "/api/anthropic/oauth/token"
                 (reply 200 "application/json" (stringify token_reply))
                 (reply 200 "application/json" (stringify raw_key_reply))) in
  exists b',
    exchangeCode rt "code#state" "verifier-1" "api-key" fresh
    = (Normal {| type := success; refresh := JUndefined; access := JUndefined;
                 expires := JUndefined; key := JStr "sk-ant-1" |}, b')
    /\ (url <$> requests b')
       = ["/api/anthropic/oauth/token"; "/api/anthropic/oauth/api-key"].
Proof.
  intros rt.
  destruct (exchangeCode_api_key rt "code#state" "verifier-1" fresh
              (reply 200 "application/json" (stringify token_reply)) token_reply
              (reply 200 "application/json" (stringify raw_key_reply)) raw_key_reply)
    as (b' & Hrun & Hreq); try discriminate; try reflexivity.
  exists b'. split; [exact Hrun |]. by rewrite Hreq.
Defined.

(** X16: for a method that is neither ["claude-pro"] nor ["api-key"],
    [exchangeCode] still sends the token request, and returns
    [{ type: "failed" }] whatever the answer. *)
Theorem exchangeCode_unknown_method rt code verifier method b :
  method <> "claude-pro" ->
  method <> "api-key" ->
  exchangeCode rt code verifier method b
  = (Normal just_failed, with_request (token_request rt code verifier) b).
Proof.
  intros Hpro Hkey. run_page.
  apply String.eqb_neq in Hpro, Hkey.
  destruct (net rt (requests b) (token_request rt code verifier)) as [m|r]; [reflexivity |].
  destruct (ok r); cbv beta iota delta [negb]; [| reflexivity].
  destruct (json_of rt (body r)); [| reflexivity].
  by rewrite Hpro, Hkey.
Qed.

Lemma exchangeCode_unknown_method_witness :
  (exchangeCode (runtime (always (reply 200 "application/json" (stringify token_reply))))
     "code" "verifier-1" "console" fresh).1 = Normal just_failed.
Proof.
  rewrite (exchangeCode_unknown_method
             (runtime (always (reply 200 "application/json" (stringify token_reply))))
             "code" "verifier-1" "console" fresh); [reflexivity | discriminate ..].
Defined.

End AnthropicAuthMoreFacts.

(** ** The auth service: starting, completing and clearing *)

Module AuthServiceMoreFacts.
Import AnthropicAuth AuthService ApiKeys AuthNotions Samples MoreSamples AnthropicAuthFacts.

Lemma getAuthorizationUrl_runs rt method b :
  exists res b',
    getAuthorizationUrl rt method b = (Normal res, b')
    /\ sessionStorage b' = sessionStorage b
    /\ requests b' = requests b
    /\ searchParams_get (auth_url res) "state" = Some (auth_verifier res).
Proof.
  unfold getAuthorizationUrl, bind, safePKCEGenerate, try_catch, lift.
  destruct (generatePKCE rt) as [pkce|m].
  - eexists; eexists. repeat split.
  - unfold generatePKCEFallback, generateRandomString, bind.
    destruct (generateRandomString_from_runs rt 128 "" b) as (s & b' & -> & Hst & Hreq).
    eexists; eexists. split; [reflexivity |]. repeat split; assumption.
Qed.

Lemma storeCredentials_trace rt result b :
  exists stored b' extra,
    storeCredentials rt result b = (Normal stored, b')
    /\ sessionStorage b' = sessionStorage b
    /\ requests b' = requests b ++ extra.
Proof.
  run_page. destruct (type result); [| exists false, b, []; by rewrite app_nil_r].
  destruct (truthy (key result)).
  - match goal with
    | |- context [net ?rt ?h ?q] => destruct (net rt h q) as [m|r]
    end; [eexists; eexists; eexists [_]; by repeat split |].
    destruct (ok r); cbv beta iota delta [negb];
      eexists; eexists; eexists [_]; by repeat split.
  - destruct (truthy (refresh result) && truthy (access result) && truthy (expires result));
      [| exists false, b, []; by rewrite app_nil_r].
    match goal with
    | |- context [net ?rt ?h ?q] => destruct (net rt h q) as [m|r]
    end; [eexists; eexists; eexists [_]; by repeat split |].
    destruct (ok r); cbv beta iota delta [negb];
      eexists; eexists; eexists [_]; by repeat split.
Qed.

Lemma completeOAuthFlow_first rt code verifier method b :
  exists done b' rest,
    completeOAuthFlow rt code verifier method b = (Normal done, b')
    /\ sessionStorage b' = sessionStorage b
    /\ requests b' = requests b ++ token_request rt code verifier :: rest.
Proof.
  destruct (exchangeCode_runs rt code verifier method b)
    as (result & b1 & new & Hrun & Hst & Hreq & Hnew & _).
  assert (Hhead : exists rest, new = token_request rt code verifier :: rest).
  { destruct Hnew as [-> | (t & _ & ->)]; eauto. }
  destruct Hhead as [rest ->].
  unfold completeOAuthFlow, bind. rewrite Hrun.
  destruct (type result).
  - destruct (storeCredentials_trace rt result b1)
      as (stored & b2 & extra & Hs & Hst2 & Hreq2).
    rewrite Hs. exists stored, b2, (rest ++ extra).
    split; [reflexivity |]. split; [congruence |].
    rewrite Hreq2, Hreq, <- app_assoc. reflexivity.
  - exists false, b1, rest. auto.
Qed.

(** What a call does when both entries are stored and non-empty. *)
Lemma completeAnthropicAuth_with_data rt authCode b verifier method :
  sessionStorage b !! "anthropic_verifier" = Some verifier ->
  sessionStorage b !! "anthropic_method" = Some method ->
  verifier <> "" -> method <> "" ->
  exists res b' rest,
    completeAnthropicAuth rt authCode b = (Normal res, b')
    /\ requests b' = requests b ++ token_request rt authCode verifier :: rest
    /\ sessionStorage b' =
         (if ar_success res
          then delete "anthropic_method" (delete "anthropic_verifier" (sessionStorage b))
          else sessionStorage b).
Proof.
  intros Hv Hm Hvne Hmne.
  unfold completeAnthropicAuth, try_catch, bind, getItem, gets. rewrite Hv, Hm.
  apply String.eqb_neq in Hvne, Hmne. unfold truthy_str. rewrite Hvne, Hmne.
  cbn [negb orb].
  destruct (completeOAuthFlow_first rt authCode verifier method b)
    as (done & b1 & rest & Hflow & Hst & Hreq).
  rewrite Hflow. destruct done.
  - unfold removeItem, modify, ret. eexists; eexists; exists rest.
    split; [reflexivity |].
    cbn [ar_success succeeded sessionStorage requests with_storage].
    by rewrite Hst.
  - exists (failure "Failed to complete authentication"), b1, rest. auto.
Qed.

(** X17: [startAnthropicAuth] always reports success without contacting
    the network; it stores the method and the verifier in [sessionStorage],
    and the URL it hands out carries that same verifier as its [state]
    parameter. *)
Theorem startAnthropicAuth_stores rt method b :
  exists res b' u verifier,
    startAnthropicAuth rt method b = (Normal res, b')
    /\ ar_success res = true
    /\ authUrl res = Some u
    /\ requests b' = requests b
    /\ sessionStorage b' =
         <["anthropic_method" := method]>
           (<["anthropic_verifier" := verifier]> (sessionStorage b))
    /\ searchParams_get u "state" = Some verifier
    /\ instructions res =
         Some (if String.eqb method "claude-pro"
               then "Log in with your Claude Pro/Max account"
               else "Log in to create an API key").
Proof.
  destruct (getAuthorizationUrl_runs rt method b) as (authData & b1 & Hrun & Hst & Hreq & Hstate).
  unfold startAnthropicAuth, try_catch, bind. rewrite Hrun.
  unfold setItem, modify, ret.
  eexists; eexists; exists (auth_url authData), (auth_verifier authData).
  split; [reflexivity |].
  cbn [ar_success authUrl instructions requests sessionStorage with_storage].
  rewrite Hst. repeat split; assumption.
Qed.

(** X18: when either stored entry is absent or empty,
    [completeAnthropicAuth] sends nothing, changes nothing and reports the
    missing-data error. *)
Theorem completeAnthropicAuth_missing_data rt authCode b :
  truthy_opt (sessionStorage b !! "anthropic_verifier")
  && truthy_opt (sessionStorage b !! "anthropic_method") = false ->
  completeAnthropicAuth rt authCode b
  = (Normal (failure
       "Missing authentication data. Please restart the authentication process."), b).
Proof.
  intros Hmissing.
  unfold completeAnthropicAuth, try_catch, bind, getItem, gets, ret.
  destruct (sessionStorage b !! "anthropic_verifier") as [verifier|]; [| reflexivity].
  destruct (sessionStorage b !! "anthropic_method") as [method|]; [| reflexivity].
  cbn [truthy_opt] in Hmissing.
  apply andb_false_iff in Hmissing as [-> | ->]; cbn [negb orb]; [reflexivity |].
  by rewrite orb_true_r.
Qed.

Lemma completeAnthropicAuth_missing_data_witness :
  completeAnthropicAuth (runtime (always (reply 200 "application/json" "ok")))
    "code#state" fresh
  = (Normal (failure
       "Missing authentication data. Please restart the authentication process."), fresh).
Proof. apply completeAnthropicAuth_missing_data. reflexivity. Defined.

(** X19: after [startAnthropicAuth] with a non-empty method and a
    non-empty verifier, [completeAnthropicAuth] begins with the token request
    built from the pasted code and the verifier that the authorization URL
    carried as [state]. *)
Theorem start_then_complete rt method authCode b res b' u :
  startAnthropicAuth rt method b = (Normal res, b') ->
  authUrl res = Some u ->
  method <> "" ->
  searchParams_get u "state" <> Some "" ->
  exists verifier res2 b'' rest,
    searchParams_get u "state" = Some verifier
    /\ completeAnthropicAuth rt authCode b' = (Normal res2, b'')
    /\ requests b'' = requests b ++ token_request rt authCode verifier :: rest.
Proof.
  intros Hstart Hurl Hmethod Hstate.
  destruct (getAuthorizationUrl_runs rt method b)
    as (authData & b1 & Hrun & Hst & Hreq & Hs).
  revert Hstart. unfold startAnthropicAuth, try_catch, bind. rewrite Hrun.
  unfold setItem, modify, ret. intros [= <- <-].
  change (Some (auth_url authData) = Some u) in Hurl.
  assert (Hu : auth_url authData = u) by congruence. subst u. clear Hurl.
  rewrite Hs in Hstate.
  destruct (completeAnthropicAuth_with_data rt authCode
              (with_storage (insert "anthropic_method" method)
                 (with_storage (insert "anthropic_verifier" (auth_verifier authData)) b1))
              (auth_verifier authData) method)
    as (res2 & b'' & rest & Hcomplete & Hreq2 & _).
  - cbn [sessionStorage with_storage].
    rewrite lookup_insert_ne by discriminate. apply lookup_insert_eq.
  - cbn [sessionStorage with_storage]. apply lookup_insert_eq.
  - congruence.
  - exact Hmethod.
  - exists (auth_verifier authData), res2, b'', rest.
    split; [exact Hs |]. split; [exact Hcomplete |].
    rewrite Hreq2. cbn [requests with_storage]. by rewrite Hreq.
Qed.

Lemma start_then_complete_witness :
  let rt := runtime (always (reply 400 "application/json" "denied")) in
  exists verifier res2 b'' rest,
    completeAnthropicAuth rt "code#state" (startAnthropicAuth rt "claude-pro" fresh).2
    = (Normal res2, b'')
    /\ requests b'' = token_request rt "code#state" verifier :: rest.
Proof.
  intros rt.
  destruct (start_then_complete rt "claude-pro" "code#state" fresh _ _ _ eq_refl eq_refl)
    as (verifier & res2 & b'' & rest & _ & Hcomplete & Hreq).
  - discriminate.
  - vm_compute. discriminate.
  - exists verifier, res2, b'', rest. split; [exact Hcomplete | exact Hreq].
Defined.

(** X20: a second [completeAnthropicAuth] after a failed one (with both
    entries stored and non-empty) starts again with a token request using the
    same verifier; after a successful one it finds the entries gone, sends
    nothing and reports the missing-data error. *)
Theorem complete_twice rt code1 code2 b verifier method res1 b1 :
  sessionStorage b !! "anthropic_verifier" = Some verifier ->
  sessionStorage b !! "anthropic_method" = Some method ->
  verifier <> "" -> method <> "" ->
  completeAnthropicAuth rt code1 b = (Normal res1, b1) ->
  if ar_success res1
  then completeAnthropicAuth rt code2 b1
       = (Normal (failure
            "Missing authentication data. Please restart the authentication process."), b1)
  else exists res2 b2 rest,
         completeAnthropicAuth rt code2 b1 = (Normal res2, b2)
         /\ requests b2 = requests b1 ++ token_request rt code2 verifier :: rest.
Proof.
  intros Hv Hm Hvne Hmne Hfirst.
  destruct (completeAnthropicAuth_with_data rt code1 b verifier method Hv Hm Hvne Hmne)
    as (res & b' & rest & Hrun & _ & Hst).
  rewrite Hrun in Hfirst. injection Hfirst as <- <-.
  destruct (ar_success res).
  - unfold completeAnthropicAuth, try_catch, bind, getItem, gets, ret.
    rewrite Hst, lookup_delete_ne by discriminate. by rewrite lookup_delete_eq.
  - rewrite <- Hst in Hv, Hm.
    destruct (completeAnthropicAuth_with_data rt code2 b' verifier method Hv Hm Hvne Hmne)
      as (res2 & b2 & rest2 & Hrun2 & Hreq2 & _).
    eauto.
Qed.

Lemma complete_twice_witness :
  let rt := runtime (always (reply 400 "application/json" "denied")) in
  exists res2 b2 rest,
    completeAnthropicAuth rt "good#s" (completeAnthropicAuth rt "bad" logging_in).2
    = (Normal res2, b2)
    /\ requests b2
       = requests (completeAnthropicAuth rt "bad" logging_in).2
         ++ token_request rt "good#s" "verifier-1" :: rest.
Proof.
  intros rt.
  exact (complete_twice rt "bad" "good#s" logging_in "verifier-1" "claude-pro"
           (failure "Failed to complete authentication") _
           eq_refl eq_refl ltac:(discriminate) ltac:(discriminate) eq_refl).
Defined.

(** X21: [clearAuth] sends exactly one DELETE to
    [/api/opencode/auth/{id}] and never throws; it reports success exactly
    when that request got a 2xx, and failure (with the provider id in the
    message) when it got another status or was rejected. *)
Theorem clearAuth_reports rt providerId b :
  clearAuth rt providerId b
  = (Normal match net rt (requests b) (clear_request providerId) with
            | Responded r =>
                if ok r
                then succeeded ("Successfully cleared authentication for " +:+ providerId)
                else failure ("Failed to clear authentication for " +:+ providerId)
            | Rejected _ => failure ("Failed to clear authentication for " +:+ providerId)
            end,
     with_request (clear_request providerId) b)
  /\ forall res b',
       clearAuth rt providerId b = (Normal res, b') ->
       (ar_success res = true <->
        exists r, net rt (requests b) (clear_request providerId) = Responded r
                  /\ ok r = true).
Proof.
  assert (Hrun : clearAuth rt providerId b
    = (Normal match net rt (requests b) (clear_request providerId) with
              | Responded r =>
                  if ok r
                  then succeeded ("Successfully cleared authentication for " +:+ providerId)
                  else failure ("Failed to clear authentication for " +:+ providerId)
              | Rejected _ => failure ("Failed to clear authentication for " +:+ providerId)
              end,
       with_request (clear_request providerId) b)).
  { unfold clearAuth, try_catch, bind, fetch, ret.
    cbv beta iota delta [sent record_request browser_net].
    destruct (net rt (requests b) (clear_request providerId)) as [m|r]; [reflexivity |].
    by destruct (ok r). }
  split; [exact Hrun |].
  intros res b'. rewrite Hrun. intros [= <- <-].
  destruct (net rt (requests b) (clear_request providerId)) as [m|r].
  - split; [discriminate | intros (r & Hr & _); discriminate Hr].
  - destruct (ok r) eqn:Hok; cbn [ar_success succeeded failure]; split.
    + intros _. by exists r.
    + reflexivity.
    + discriminate.
    + intros (r' & [= <-] & Hok'). congruence.
Qed.

Lemma clearAuth_reports_witness :
  exists res b',
    clearAuth (runtime (always (reply 204 "text/plain" ""))) "openai" fresh = (Normal res, b')
    /\ ar_success res = true.
Proof.
  destruct (clearAuth_reports (runtime (always (reply 204 "text/plain" ""))) "openai" fresh)
    as [Hrun Hiff].
  eexists; eexists. split; [exact Hrun |].
  apply (Hiff _ _ Hrun). by exists (reply 204 "text/plain" "").
Defined.

(** X22: [storeApiKey] refuses a key whose trimmed form is empty without
    sending anything; for any other key it sends exactly one PUT to
    [/api/opencode/auth/{provider}] whose body holds the key as given (not
    trimmed), and reports success exactly when that request got a 2xx. *)
Theorem storeApiKey_blank_or_put rt trim provider apiKey b :
  (trim apiKey = "" ->
     storeApiKey rt trim provider apiKey b
     = (Normal (failure "API key cannot be empty"), b))
  /\ (trim apiKey <> "" ->
        exists res,
          storeApiKey rt trim provider apiKey b
          = (Normal res, with_request (api_key_put rt provider apiKey) b)
          /\ req_body (api_key_put rt provider apiKey)
             = Some (JSON_stringify rt (JObj [("type", JStr "api"); ("key", JStr apiKey)]))
          /\ (ar_success res = true <->
              exists r, net rt (requests b) (api_key_put rt provider apiKey) = Responded r
                        /\ ok r = true)).
Proof.
  unfold storeApiKey, truthy_str. split.
  - intros ->. reflexivity.
  - intros Hkey. apply String.eqb_neq in Hkey. rewrite Hkey. cbn [negb].
    unfold try_catch, bind, fetch, ret.
    cbv beta iota delta [sent record_request browser_net].
    destruct (net rt (requests b) (api_key_put rt provider apiKey)) as [m|r].
    + eexists. split; [reflexivity |]. split; [reflexivity |].
      split; [discriminate | intros (r & Hr & _); discriminate Hr].
    + destruct (ok r) eqn:Hok; cbv beta iota delta [negb];
        (eexists; split; [reflexivity |]; split; [reflexivity |]); split.
      * intros _. by exists r.
      * reflexivity.
      * discriminate.
      * intros (r' & [= <-] & Hok'). congruence.
Qed.

Lemma storeApiKey_blank_or_put_witness :
  let rt := runtime (always (reply 200 "application/json" "true")) in
  storeApiKey rt trim_spaces "openai" "   " fresh
  = (Normal (failure "API key cannot be empty"), fresh)
  /\ exists res,
       storeApiKey rt trim_spaces "openai" " sk-1 " fresh
       = (Normal res, with_request (api_key_put rt "openai" " sk-1 ") fresh).
Proof.
  intros rt. split.
  - exact (proj1 (storeApiKey_blank_or_put rt trim_spaces "openai" "   " fresh) eq_refl).
  - destruct (proj2 (storeApiKey_blank_or_put rt trim_spaces "openai" " sk-1 " fresh))
      as (res & Hrun & _); [discriminate | by exists res].
Defined.

End AuthServiceMoreFacts.

(** ** The API-key form *)

Module ApiKeyAuthFacts.
Import AuthService ApiKeys ApiKeyAuth Samples MoreSamples.

(** X23: submitting the key form with a key whose trimmed form is empty
    only sets the error text.  Otherwise one PUT is sent, [isLoading] is
    [false] afterwards, and exactly when the PUT got a 2xx the key field is
    emptied, the success message is shown without an error and
    [onAuthSuccess] is called once; in every other case the key stays in the
    field, the error text is set and [onAuthSuccess] is not called. *)
Theorem handleSubmit_outcomes rt trim providerId st b :
  (trim (apiKey st) = "" ->
     handleSubmit rt trim providerId (st, b)
     = (Normal tt, (setError "Please enter an API key" st, b)))
  /\ (trim (apiKey st) <> "" ->
        exists st',
          handleSubmit rt trim providerId (st, b)
          = (Normal tt, (st', with_request (api_key_put rt providerId (apiKey st)) b))
          /\ isLoading st' = false
          /\ match net rt (requests b) (api_key_put rt providerId (apiKey st)) with
             | Responded r =>
                 if ok r
                 then apiKey st' = ""
                      /\ message st' = "Successfully stored " +:+ providerId +:+ " API key"
                      /\ error st' = ""
                      /\ onAuthSuccess_calls st' = Datatypes.S (onAuthSuccess_calls st)
                 else apiKey st' = apiKey st
                      /\ message st' = ""
                      /\ error st' = "Failed to store " +:+ providerId +:+ " API key"
                      /\ onAuthSuccess_calls st' = onAuthSuccess_calls st
             | Rejected _ =>
                 apiKey st' = apiKey st
                 /\ message st' = ""
                 /\ error st' = "Failed to store " +:+ providerId +:+ " API key"
                 /\ onAuthSuccess_calls st' = onAuthSuccess_calls st
             end).
Proof.
  unfold handleSubmit, storeApiKey, truthy_str.
  split; intros Hkey;
    cbv beta iota zeta delta [bind get_state gets in_browser fst snd].
  - rewrite Hkey. reflexivity.
  - apply String.eqb_neq in Hkey. rewrite !Hkey.
    cbv beta iota zeta delta
      [negb clearMessages try_finally try_catch bind in_browser set_state modify
       fetch ret sent record_request browser_net fst snd].
    destruct (net rt (requests b) (api_key_put rt providerId (apiKey st))) as [m|r].
    + eexists. split; [reflexivity |]. repeat split.
    + destruct (ok r); eexists; (split; [reflexivity |]; repeat split).
Qed.

Lemma handleSubmit_outcomes_witness :
  let rt := runtime (always (reply 200 "application/json" "true")) in
  exists st' b',
    handleSubmit rt trim_spaces "openai" (key_form, fresh) = (Normal tt, (st', b'))
    /\ isLoading st' = false.
Proof.
  intros rt.
  destruct (proj2 (handleSubmit_outcomes rt trim_spaces "openai" key_form fresh))
    as (st' & Hrun & Hload & _); [discriminate |].
  eexists; eexists. split; [exact Hrun | exact Hload].
Defined.

End ApiKeyAuthFacts.

(** ** The status card: failures and odd responses *)

Module AuthStatusMoreFacts.
Import AuthService AuthStatus ChatNotions Samples MoreSamples AuthStatusFacts.

Ltac run_fetchProviders :=
  cbv beta iota zeta delta
    [fetchProviders try_finally try_catch bind fetch set_state modify throw lift ret
     sent record_request component_net fst snd].

Lemma render_error rt st ps msg :
  providers st = JArr ps ->
  Forall (fun p => is_Provider p = true) ps ->
  loading st = false ->
  error st = Some msg ->
  msg <> "" ->
  render rt st = Normal (ErrorView msg).
Proof.
  intros Hp Hps Hl He Hmsg. unfold render.
  rewrite Hp, (count_truthy_providers rt ps Hps), Hl, He.
  apply String.eqb_neq in Hmsg. cbn [truthy_opt default]. unfold truthy_str.
  by rewrite Hmsg.
Qed.

(** X24: when the provider request is rejected or answered with a non-2xx
    status, [fetchProviders] keeps the provider list it had, ends with
    [loading] off, and the card shows the error text: the rejection's message,
    or ["HTTP error! status: "] followed by the status. *)
Theorem fetchProviders_failure_shows_error rt st b ps :
  providers st = JArr ps ->
  Forall (fun p => is_Provider p = true) ps ->
  failed_outcome (net rt (requests b) providers_request) ->
  failure_message "HTTP error! status: " (net rt (requests b) providers_request) <> "" ->
  exists st',
    fetchProviders rt (st, b) = (Normal tt, (st', with_request providers_request b))
    /\ providers st' = providers st
    /\ loading st' = false
    /\ render rt st'
       = Normal (ErrorView (failure_message "HTTP error! status: "
                              (net rt (requests b) providers_request))).
Proof.
  intros Hp Hps Hfail Hmsg. run_fetchProviders.
  destruct (net rt (requests b) providers_request) as [m|r].
  - eexists. split; [reflexivity |]. split; [reflexivity |]. split; [reflexivity |].
    by apply (render_error rt _ ps m).
  - cbn [failed_outcome] in Hfail. rewrite Hfail. cbv beta iota delta [negb].
    eexists. split; [reflexivity |]. split; [reflexivity |]. split; [reflexivity |].
    by apply (render_error rt _ ps).
Qed.

Lemma fetchProviders_failure_shows_error_witness :
  let rt := runtime (via_relay unreachable) in
  exists st' b',
    fetchProviders rt (initial, fresh) = (Normal tt, (st', b'))
    /\ render rt st' = Normal (ErrorView "HTTP error! status: 502").
Proof.
  intros rt.
  destruct (fetchProviders_failure_shows_error rt initial fresh [] eq_refl)
    as (st' & Hrun & _ & _ & Hrender).
  - constructor.
  - reflexivity.
  - vm_compute. discriminate.
  - eexists; eexists. split; [exact Hrun | exact Hrender].
Defined.

(** X25: an OK response whose JSON has no [providers] (absent or [null])
    gives the empty list and the "no providers" card with 0 of 0; a
    [providers] that is neither absent, [null] nor an array makes the
    [?.find(...)] call throw, so the error text is the [TypeError]'s message
    and the list stays as it was. *)
Theorem fetchProviders_without_array rt st b r data v :
  net rt (requests b) providers_request = Responded r ->
  ok r = true ->
  json_of rt (body r) = Normal data ->
  get_prop rt data "providers" = Normal v ->
  (forall items, v <> JArr items) ->
  exists st',
    fetchProviders rt (st, b) = (Normal tt, (st', with_request providers_request b))
    /\ loading st' = false
    /\ match v with
       | JUndefined | JNull =>
           providers st' = JArr [] /\ error st' = None
           /\ render rt st' = Normal (StatusView 0 0 [] true)
       | _ =>
           providers st' = providers st
           /\ error st' = Some (TypeError_message rt)
       end.
Proof.
  intros Hnet Hok Hjson Hprov Hnot. run_fetchProviders.
  rewrite Hnet, Hok. cbv beta iota delta [negb]. rewrite Hjson, Hprov.
  destruct v; try (exfalso; by eapply Hnot);
    cbn [optional_find]; eexists; (split; [reflexivity |]; repeat split).
Qed.

Lemma fetchProviders_without_array_witness :
  let rt := runtime (always (reply 200 "application/json" (stringify session_ses_1))) in
  exists st' b',
    fetchProviders rt (initial, fresh) = (Normal tt, (st', b'))
    /\ render rt st' = Normal (StatusView 0 0 [] true).
Proof.
  intros rt.
  destruct (fetchProviders_without_array rt initial fresh _ session_ses_1 JUndefined
              eq_refl eq_refl eq_refl eq_refl)
    as (st' & Hrun & _ & _ & _ & Hrender); [discriminate |].
  eexists; eexists. split; [exact Hrun | exact Hrender].
Defined.

End AuthStatusMoreFacts.

(** ** The chat widget: failures, subscriptions and sending *)

Module AiChatMoreFacts.
Import AiChat AiChatSend ChatNotions Samples MoreSamples.

(** X26: when the session request is rejected or answered with a non-2xx
    status, [createSession] sets no session id and opens no [EventSource]; it
    hands one message to [onError] and appends the fixed help text to the
    chat.  For a non-2xx answer whose body is a JSON object with a non-empty
    string [error] (as the relay's own error answers are), the message is
    ["Failed to create session (<status>): <error>"]. *)
Theorem createSession_failure rt st b :
  failed_outcome (net rt (requests b) (session_request rt)) ->
  exists st' msg,
    createSession rt (st, b) = (Normal tt, (st', with_request (session_request rt) b))
    /\ sessionId st' = sessionId st
    /\ eventSourceRef st' = eventSourceRef st
    /\ onError_calls st' = onError_calls st ++ [msg]
    /\ (said <$> messages st') = (said <$> messages st) ++ [(assistant, cannot_connect)]
    /\ match net rt (requests b) (session_request rt) with
       | Rejected m => msg = m
       | Responded r =>
           msg = "Failed to create session (" +:+ pretty (status r) +:+ "): "
                 +:+ js_String (parse_error rt (text_of (body r)))
           /\ forall e,
                JSON_parse rt (text_of (body r)) = Normal (JObj [("error", JStr e)]) ->
                e <> "" ->
                msg = "Failed to create session (" +:+ pretty (status r) +:+ "): " +:+ e
       end.
Proof.
  intros Hfail.
  cbv beta iota zeta delta
    [createSession try_catch bind fetch lift set_state modify throw
     sent record_request component_net fst snd].
  destruct (net rt (requests b) (session_request rt)) as [m|r].
  - eexists; eexists. split; [reflexivity |].
    cbn [messages setMessages onError]. rewrite fmap_app. repeat split.
  - cbn [failed_outcome] in Hfail. rewrite Hfail. cbv beta iota delta [negb].
    eexists; eexists. split; [reflexivity |].
    cbn [messages setMessages onError]. rewrite fmap_app. repeat split.
    intros e Hparse He. unfold parse_error. rewrite Hparse.
    cbn [get_prop own_prop last_field String.eqb Ascii.eqb Bool.eqb js_or truthy].
    apply String.eqb_neq in He. unfold js_or, truthy. rewrite He. reflexivity.
Qed.

Lemma createSession_failure_witness :
  let rt := runtime_knowing [Relay.error_body "Failed to create session"]
              (via_relay unreachable) in
  exists st' b',
    createSession rt (initial, fresh) = (Normal tt, (st', b'))
    /\ sessionId st' = JNull
    /\ onError_calls st' = ["Failed to create session (502): Failed to create session"].
Proof.
  intros rt.
  destruct (createSession_failure rt initial fresh) as (st' & msg & Hrun & Hid & _ & Herr & _ & Hmsg).
  - reflexivity.
  - eexists; eexists. split; [exact Hrun |]. split; [exact Hid |].
    rewrite Herr. cbn [onError_calls initial app]. f_equal.
    cbv beta iota in Hmsg.
    exact (proj2 Hmsg "Failed to create session" eq_refl ltac:(discriminate)).
Defined.

(** X27: if every [EventSource] other than the widget's current one is
    closed, the same holds after [setupEventSource]: the previous one has
    been closed, and the new, open one is the current one.  So repeated
    session setups never leave two subscriptions open. *)
Theorem setupEventSource_keeps_one_open session st b :
  others_closed (eventSourceRef st) (event_sources b) ->
  exists st' b',
    setupEventSource session (st, b) = (Normal tt, (st', b'))
    /\ eventSourceRef st' = Some (length (event_sources b))
    /\ event_sources b' !! length (event_sources b)
       = Some {| es_url := "/api/opencode/events"; es_session := session;
                 es_closed := false |}
    /\ length (event_sources b') = Datatypes.S (length (event_sources b))
    /\ others_closed (eventSourceRef st') (event_sources b').
Proof.
  intros Hclosed.
  cbv beta iota zeta delta
    [setupEventSource bind get_state gets in_browser modify set_state ret fst snd].
  destruct (eventSourceRef st) as [i|] eqn:Href;
    cbv beta iota zeta delta [fst snd];
    (eexists; eexists; split; [reflexivity |];
     cbn [eventSourceRef set_eventSourceRef event_sources with_event_sources fst snd]).
  - rewrite !length_alter. split; [reflexivity |].
    split; [rewrite lookup_app_r by (rewrite length_alter; lia);
            by rewrite length_alter, Nat.sub_diag |].
    split; [rewrite length_app, length_alter; cbn; lia |].
    intros j es Hj Hne.
    assert (Hlt : j < length (event_sources b)).
    { apply lookup_lt_Some in Hj. rewrite length_app, length_alter in Hj. cbn in Hj.
      destruct (decide (j = length (event_sources b))); [congruence | lia]. }
    rewrite lookup_app_l in Hj by (by rewrite length_alter).
    rewrite list_lookup_alter in Hj. destruct (decide (i = j)) as [-> | Hij].
    + destruct (event_sources b !! j); [| discriminate Hj].
      injection Hj as <-. reflexivity.
    + apply (Hclosed j es Hj). congruence.
  - split; [reflexivity |].
    split; [rewrite lookup_app_r by lia; by rewrite Nat.sub_diag |].
    split; [rewrite length_app; cbn; lia |].
    intros j es Hj Hne.
    assert (Hlt : j < length (event_sources b)).
    { apply lookup_lt_Some in Hj. rewrite length_app in Hj. cbn in Hj.
      destruct (decide (j = length (event_sources b))); [congruence | lia]. }
    rewrite lookup_app_l in Hj by exact Hlt.
    apply (Hclosed j es Hj). discriminate.
Qed.

Lemma setupEventSource_keeps_one_open_witness :
  exists st' b',
    setupEventSource (JStr "ses_2")
      (typing.1, with_event_sources
                   (fun _ => [ {| es_url := "/api/opencode/events";
                                  es_session := JStr "ses_1"; es_closed := false |} ])
                   fresh)
    = (Normal tt, (st', b'))
    /\ (es_closed <$> event_sources b') = [true; false].
Proof.
  destruct (setupEventSource_keeps_one_open (JStr "ses_2") typing.1
              (with_event_sources
                 (fun _ => [ {| es_url := "/api/opencode/events";
                                es_session := JStr "ses_1"; es_closed := false |} ])
                 fresh))
    as (st' & b' & Hrun & _).
  - intros j es Hj Hne. destruct j as [|j]; [by elim Hne | discriminate Hj].
  - exists st', b'. split; [exact Hrun |].
    vm_compute in Hrun. by injection Hrun as _ <-.
Defined.

Ltac run_sendMessage :=
  cbv beta iota zeta delta
    [sendMessage try_catch bind fetch get_state gets set_state modify throw ret
     sent record_request component_net fst snd].

(** X28: [sendMessage] does nothing at all (no request, no state change,
    no timer) when the trimmed input is empty, when there is no session id, or
    while a reply is awaited. *)
Theorem sendMessage_guard rt trim st timers b :
  trim (input st) = "" \/ truthy (sessionId st) = false \/ isLoading st = true ->
  sendMessage rt trim ((st, timers), b) = (Normal tt, ((st, timers), b)).
Proof.
  intros Hguard. run_sendMessage.
  destruct Hguard as [-> | [-> | ->]]; cbn [truthy_str String.eqb negb orb].
  - reflexivity.
  - by rewrite orb_true_r.
  - by rewrite orb_true_r.
Qed.

Lemma sendMessage_guard_witness :
  sendMessage (runtime unreachable) trim_spaces
    ((AiChat.initial, []), fresh) = (Normal tt, ((AiChat.initial, []), fresh)).
Proof. apply sendMessage_guard. left. reflexivity. Defined.

(** X29: otherwise [sendMessage] sends exactly one POST to
    [/api/opencode/session/{id}/message] with the trimmed input as the text
    part, appends the user's message and empties the input.  On a 2xx answer
    the widget keeps waiting ([isLoading] on) and one poll of the session is
    scheduled 2000 ms later; on any other outcome [isLoading] is off, no poll
    is scheduled, the failure is handed to [onError] and ["Error: ..."] is
    appended to the chat.  The [EventSource]s are neither consulted nor
    touched. *)
Theorem sendMessage_outcomes rt trim st timers b :
  trim (input st) <> "" ->
  truthy (sessionId st) = true ->
  isLoading st = false ->
  let request := message_request rt (sessionId st) (trim (input st)) in
  exists st' timers',
    sendMessage rt trim ((st, timers), b)
    = (Normal tt, ((st', timers'), with_request request b))
    /\ input st' = ""
    /\ sessionId st' = sessionId st
    /\ eventSourceRef st' = eventSourceRef st
    /\ match net rt (requests b) request with
       | Responded r =>
           if ok r
           then isLoading st' = true
                /\ (said <$> messages st')
                   = (said <$> messages st) ++ [(user, trim (input st))]
                /\ timers' = timers ++ [ {| delay := 2000; poll_session := sessionId st |} ]
                /\ onError_calls st' = onError_calls st
           else isLoading st' = false
                /\ (said <$> messages st')
                   = (said <$> messages st) ++
                     [(user, trim (input st));
                      (assistant, "Error: Failed to send message: " +:+ pretty (status r))]
                /\ timers' = timers
                /\ onError_calls st' = onError_calls st
                     ++ ["Failed to send message: " +:+ pretty (status r)]
       | Rejected m =>
           isLoading st' = false
           /\ (said <$> messages st')
              = (said <$> messages st) ++
                [(user, trim (input st)); (assistant, "Error: " +:+ m)]
           /\ timers' = timers
           /\ onError_calls st' = onError_calls st ++ [m]
       end.
Proof.
  intros Hinput Hsession Hidle request. run_sendMessage.
  apply String.eqb_neq in Hinput. unfold truthy_str.
  rewrite Hinput, Hsession, Hidle. cbn [negb orb].
  cbv beta iota zeta delta [on_chat setTimeout fst snd].
  fold request.
  destruct (net rt (requests b) request) as [m|r].
  - eexists; eexists. split; [reflexivity |].
    cbn [input sessionId eventSourceRef isLoading messages onError_calls
         setMessages setInput setIsLoading onError].
    rewrite !fmap_app, <- app_assoc. repeat split.
  - destruct (ok r); cbv beta iota delta [negb];
      (eexists; eexists; split; [reflexivity |]);
      cbn [input sessionId eventSourceRef isLoading messages onError_calls
           setMessages setInput setIsLoading onError fst snd];
      rewrite !fmap_app, <- ?app_assoc; repeat split.
Qed.

Lemma sendMessage_outcomes_witness :
  let rt := runtime (always (reply 200 "application/json" "[]")) in
  exists st' timers' b',
    sendMessage rt trim_spaces (typing, fresh) = (Normal tt, ((st', timers'), b'))
    /\ isLoading st' = true
    /\ (said <$> messages st') = [(user, "hello")]
    /\ timers' = [ {| delay := 2000; poll_session := JStr "ses_1" |} ].
Proof.
  intros rt.
  destruct (sendMessage_outcomes rt trim_spaces typing.1 typing.2 fresh)
    as (st' & timers' & Hrun & _ & _ & _ & Hout); try reflexivity; [discriminate |].
  cbv beta iota zeta in Hout.
  change (net rt (requests fresh)
            (message_request rt (sessionId typing.1) (trim_spaces (input typing.1))))
    with (Responded (reply 200 "application/json" "[]")) in Hout.
  change (ok (reply 200 "application/json" "[]")) with true in Hout.
  destruct Hout as (Hload & Hmsgs & Htimers & _).
  exists st', timers', (with_request
    (message_request rt (sessionId typing.1) (trim_spaces (input typing.1))) fresh).
  split; [exact Hrun |]. split; [exact Hload |].
  split; [by rewrite Hmsgs | exact Htimers].
Defined.

End AiChatMoreFacts.
